(** * immune-state-geometry-scATAC: the two publication scripts

    A shallow embedding of [scripts/generate_data_code_section.py] (the
    Data & Code Availability generator) and [scripts/upload_to_zenodo.py]
    (the Zenodo publisher), with the properties their specification states.

    Layout: the Python string and path operations the scripts call
    ([PyStr], [Pathlib]), the generator ([Generator]), the publisher
    ([Uploader]) and the order of its remote calls ([Protocol]); then the
    lemmas, module by module. *)

From Stdlib Require Import ZArith Ascii.
From stdpp Require Import gmap strings list fin_maps sorting pretty.

Set Warnings "-register-all".

Local Open Scope Z_scope.

(** ** Python results: a value or a raised exception *)

Inductive result (E A : Type) : Type :=
| Returned (a : A)
| Raised (e : E).
Arguments Returned {E A} a.
Arguments Raised {E A} e.

(** ** [str] methods used by the scripts *)

Module PyStr.

Definition CR : ascii := ascii_of_nat 13.
Definition LF : ascii := ascii_of_nat 10.

(** [s.startswith(p)] *)
Definition startswith (p s : string) : bool := String.prefix p s.

(** [sub in s] *)
Fixpoint contains (sub s : string) : bool :=
  match s with
  | EmptyString => startswith sub s
  | String _ s' => startswith sub s || contains sub s'
  end.



(** [s.replace(old, new)] scans left to right; at a match it emits [new]
    and jumps over the match ([skip] counts the characters still to jump),
    so occurrences are taken without overlap and every one is replaced. *)
Fixpoint replace_scan (skip : nat) (old new s : string) : string :=
  match s with
  | EmptyString => EmptyString
  | String c s' =>
      match skip with
      | S k => replace_scan k old new s'
      | O =>
          if startswith old s
          then new +:+ replace_scan (String.length old - 1) old new s'
          else String c (replace_scan 0 old new s')
      end
  end.

(** With an empty [old], Python puts [new] before every character and at
    the end. *)
Fixpoint replace_empty (new s : string) : string :=
  match s with
  | EmptyString => new
  | String c s' => new +:+ String c (replace_empty new s')
  end.

Definition replace (old new s : string) : string :=
  match old with
  | EmptyString => replace_empty new s
  | String _ _ => replace_scan 0 old new s
  end.





(** [s * n] *)
Fixpoint repeat (s : string) (n : nat) : string :=
  match n with
  | O => EmptyString
  | S k => s +:+ repeat s k
  end.

(** [sep.join(parts)] *)
Definition join (sep : string) (parts : list string) : string :=
  String.concat sep parts.

(** Text-mode reading ([newline=None]): "\r\n" and a lone "\r" both become
    "\n". *)
Fixpoint universal_newlines (s : string) : string :=
  match s with
  | EmptyString => EmptyString
  | String c s' =>
      if Ascii.eqb c CR
      then match s' with
           | String d _ =>
               if Ascii.eqb d LF then universal_newlines s'
               else String LF (universal_newlines s')
           | EmptyString => String LF EmptyString
           end
      else String c (universal_newlines s')
  end.

(** [fnmatch] for patterns made of literal characters and [*], which is
    all the scripts' patterns ("*.tsv", "Fig*.pdf") contain. *)
Fixpoint fnmatch (pat s : string) : bool :=
  match pat with
  | EmptyString => match s with EmptyString => true | _ => false end
  | String c pat' =>
      if Ascii.eqb c "*"%char
      then (fix star (t : string) : bool :=
              fnmatch pat' t ||
              match t with
              | EmptyString => false
              | String _ t' => star t'
              end) s
      else match s with
           | EmptyString => false
           | String d s' => Ascii.eqb c d && fnmatch pat' s'
           end
  end.

(** [sub] occurs in [s]: some text before it, some text after it. This
    is what [contains] decides. *)
Definition occurs (sub s : string) : Prop :=
  exists before after, s = before +:+ sub +:+ after.

End PyStr.

(** ** [pathlib] on absolute POSIX paths

    A resolved path is the list of its components below "/", so [[]] is
    the filesystem root. *)

Module Pathlib.

Abbreviation path := (list string).

(** [p.name] *)
Definition name (p : path) : string := List.last p EmptyString.

(** [p.parent] *)
Definition parent (p : path) : path := removelast p.

(** [p / child] for a single component [child] *)
Definition joinpath (p : path) (child : string) : path := p ++ [child].

(** [p.relative_to(root)]: the components of [p] below [root], [None]
    where Python raises [ValueError]. *)
Fixpoint relative_to (p root : path) : option path :=
  match root, p with
  | [], _ => Some p
  | _ :: _, [] => None
  | a :: root', b :: p' =>
      if String.eqb a b then relative_to p' root' else None
  end.

(** [str(p)] for an absolute and for a relative path *)
Definition str_abs (p : path) : string := "/" +:+ PyStr.join "/" p.

Definition str_rel (p : path) : string :=
  match p with
  | [] => "."
  | _ :: _ => PyStr.join "/" p
  end.

(** The order [sorted] uses on paths: component by component, strings by
    code point. *)
Fixpoint path_leb (p q : path) : bool :=
  match p, q with
  | [], _ => true
  | _ :: _, [] => false
  | a :: p', b :: q' =>
      match String.compare a b with
      | Lt => true
      | Gt => false
      | Eq => path_leb p' q'
      end
  end.

Definition path_le (p q : path) : Prop := path_leb p q = true.

#[export] Instance path_le_dec : RelDecision path_le.
Proof. intros p q. unfold path_le. apply _. Defined.

(** Paths as the publisher builds them, possibly relative: [Path(s)],
    [p / s] and [p.name]. Empty and "." components are dropped; the POSIX
    special case of exactly two leading slashes is not distinguished. *)
Record pure_path : Type := PurePath {
  absolute : bool;
  parts : list string
}.

Fixpoint split_slash (s : string) : list string :=
  match s with
  | EmptyString => [EmptyString]
  | String c s' =>
      if Ascii.eqb c "/"%char then EmptyString :: split_slash s'
      else match split_slash s' with
           | [] => [String c EmptyString]
           | h :: t => String c h :: t
           end
  end.

Definition kept_component (c : string) : bool :=
  negb (String.eqb c "") && negb (String.eqb c ".").

Definition Path (s : string) : pure_path :=
  PurePath (PyStr.startswith "/" s) (List.filter kept_component (split_slash s)).

Definition truediv (p : pure_path) (s : string) : pure_path :=
  let q := Path s in
  if absolute q then q else PurePath (absolute p) (parts p ++ parts q).

Definition pure_name (p : pure_path) : string := List.last (parts p) EmptyString.

End Pathlib.

(** ** The documentation generator, [generate_data_code_section.py] *)

Module Generator.
Import Pathlib.

(** What a path of the tree holds. File contents are the file's bytes,
    taken to be valid UTF-8; the scripts' tokens are ASCII, so searching
    the bytes is searching the decoded text. *)
Inductive entry : Type :=
| File (content : string)
| Directory.

Inductive exn : Type :=
| IsADirectoryError
| FileNotFoundError
| ValueError.

Record world : Type := World {
  fs : gmap (list string) entry;
  stdout : list string;
  stderr : list string
}.

Definition print (line : string) (w : world) : world :=
  World (fs w) (stdout w ++ [line]) (stderr w).

Definition print_err (line : string) (w : world) : world :=
  World (fs w) (stdout w) (stderr w ++ [line]).

(** [p.exists()] *)
Definition exists_ (w : world) (p : path) : bool :=
  match fs w !! p with Some _ => true | None => false end.

(** [p.read_text(encoding="utf-8")] *)
Definition read_text (w : world) (p : path) : result exn string :=
  match fs w !! p with
  | Some (File content) => Returned (PyStr.universal_newlines content)
  | Some Directory => Raised IsADirectoryError
  | None => Raised FileNotFoundError
  end.

(** [p.write_text(text, encoding="utf-8")], with [os.linesep = "\n"] *)
Definition write_text (p : path) (text : string) (w : world) : world :=
  World (<[p := File text]> (fs w)) (stdout w) (stderr w).

(** [root.rglob(pattern)]: every entry strictly below [root] whose name
    matches. *)
Definition below (root p : path) : bool :=
  match relative_to p root with
  | Some (_ :: _) => true
  | _ => false
  end.

Definition rglob (w : world) (root : path) (pattern : string) : list path :=
  List.filter (fun p => below root p && PyStr.fnmatch pattern (name p))
    (map fst (map_to_list (fs w))).

Definition sorted (ps : list path) : list path := merge_sort path_le ps.

Definition get_tsv_files (w : world) (root : path) (search_pattern : string)
  : list path :=
  sorted (rglob w root search_pattern).

Definition get_pdf_figures (w : world) (root : path) : list path :=
  let figures := sorted (rglob w root "Fig*.pdf") in
  figures.

(** The [descriptions] dict of [describe_table], in insertion order. *)
Definition descriptions : list (string * string) :=
  [ ("Fig1_InfoArchitecture",
     "Reduced informational coordinates and cluster assignments (Fig. 1).");
    ("Fig2_Separation",
     "State separation metrics and pairwise distances (Fig. 2).");
    ("Fig3_VulnerabilityCurves",
     "Vulnerability curves across perturbation fractions (Fig. 3).");
    ("Fig4_VulnerabilitySummary",
     "Summary vulnerability metrics by state and donor (Fig. 4).");
    ("ED2_TDA",
     "Topological Data Analysis persistence summaries (Extended Data 2).");
    ("ED_Supplementary",
     "Additional supplementary data tables.") ].

Definition fallback_description : string := "Processed analysis table.".

(** The [for key, desc in descriptions.items()] loop: [Some desc] when it
    returns from inside, [None] when it runs to its end. *)
Fixpoint describe_loop (items : list (string * string)) (name : string)
  : option string :=
  match items with
  | [] => None
  | (key, desc) :: rest =>
      if PyStr.contains key name then Some desc else describe_loop rest name
  end.

Definition describe_table (filepath : path) : string :=
  let name := name filepath in
  match describe_loop descriptions name with
  | Some desc => desc
  | None => fallback_description
  end.

Definition no_tables_yet : string :=
  "*No processed data files found. Tables will be added as analysis progresses.*".
Definition no_tables : string := "*No processed data files found.*".
Definition no_figures_yet : string :=
  "*Figure PDFs will be added upon completion of analysis.*".
Definition no_figures : string := "*No figure PDFs found.*".

(** The loop of [generate_tables_section] building [lines]. *)
Fixpoint table_lines (root : path) (tsv_files : list path)
  : result exn (list string) :=
  match tsv_files with
  | [] => Returned []
  | filepath :: rest =>
      if String.eqb (name (parent filepath)) "metadata"
      then table_lines root rest
      else
        match relative_to filepath root with
        | None => Raised ValueError
        | Some rel_path =>
            let desc := describe_table filepath in
            match table_lines root rest with
            | Raised e => Raised e
            | Returned lines =>
                Returned (("- `" +:+ str_rel rel_path +:+ "` – " +:+ desc)
                          :: lines)
            end
        end
  end.

Definition generate_tables_section (w : world) (root : path)
  : result exn string :=
  let tsv_files := get_tsv_files w root "*.tsv" in
  match tsv_files with
  | [] => Returned no_tables_yet
  | _ :: _ =>
      match table_lines root tsv_files with
      | Raised e => Raised e
      | Returned [] => Returned no_tables
      | Returned (l :: ls) => Returned (PyStr.join (String PyStr.LF "") (l :: ls))
      end
  end.

(** The loop of [generate_figures_section] building [lines]. *)
Fixpoint figure_lines (root : path) (pdf_files : list path)
  : result exn (list string) :=
  match pdf_files with
  | [] => Returned []
  | filepath :: rest =>
      match relative_to filepath root with
      | None => Raised ValueError
      | Some rel_path =>
          match figure_lines root rest with
          | Raised e => Raised e
          | Returned lines => Returned (("- `" +:+ str_rel rel_path +:+ "`") :: lines)
          end
      end
  end.

Definition generate_figures_section (w : world) (root : path)
  : result exn string :=
  let pdf_files := get_pdf_figures w root in
  match pdf_files with
  | [] => Returned no_figures_yet
  | _ :: _ =>
      match figure_lines root pdf_files with
      | Raised e => Raised e
      | Returned [] => Returned no_figures
      | Returned (l :: ls) => Returned (PyStr.join (String PyStr.LF "") (l :: ls))
      end
  end.

Definition TABLES_AUTO : string := "<!-- TABLES_AUTO -->".
Definition FIGS_AUTO : string := "<!-- FIGS_AUTO -->".

(** [update_readme]: the world after the call and how the call ended. *)
Definition update_readme (root : path) (tables_block figs_block : string)
  (w : world) : world * result exn unit :=
  let readme_path := joinpath root "README.md" in
  if negb (exists_ w readme_path)
  then (print_err ("Warning: README.md not found at " +:+ str_abs readme_path) w,
        Returned tt)
  else
    match read_text w readme_path with
    | Raised e => (w, Raised e)
    | Returned text =>
        let '(text, w) :=
          if PyStr.contains TABLES_AUTO text
          then (PyStr.replace TABLES_AUTO tables_block text,
                print "✓ Updated processed data tables section" w)
          else (text, w) in
        let '(text, w) :=
          if PyStr.contains FIGS_AUTO text
          then (PyStr.replace FIGS_AUTO figs_block text,
                print "✓ Updated figures section" w)
          else (text, w) in
        let w := write_text readme_path text w in
        (print "✓ README.md updated successfully" w, Returned tt)
    end.

(** [main], for the resolved repository root and the time of the run. *)
Definition main (root : path) (now : string) (w : world)
  : world * result exn unit :=
  let rule := PyStr.repeat "=" 70 in
  let w := print ("Repository root: " +:+ str_abs root) w in
  let w := print ("Scanning for data files and figures..." +:+ String PyStr.LF "") w in
  match generate_tables_section w root with
  | Raised e => (w, Raised e)
  | Returned tables_block =>
      match generate_figures_section w root with
      | Raised e => (w, Raised e)
      | Returned figs_block =>
          let w := print rule w in
          let w := print "PROCESSED DATA FILES" w in
          let w := print rule w in
          let w := print tables_block w in
          let w := print "" w in
          let w := print rule w in
          let w := print "FIGURE PDFs" w in
          let w := print rule w in
          let w := print figs_block w in
          let w := print "" w in
          let w := print rule w in
          let w := print "UPDATING README.md" w in
          let w := print rule w in
          match update_readme root tables_block figs_block w with
          | (w, Raised e) => (w, Raised e)
          | (w, Returned _) =>
              (print (String PyStr.LF "" +:+ "Generation completed at " +:+ now) w,
               Returned tt)
          end
      end
  end.

(** What the specification asks of a description for a file called
    [name]: the entry of the first key of the table that occurs in the
    name, the fallback when no key occurs. *)
Inductive described (name : string) : string -> Prop :=
| described_by_key before key desc after :
    descriptions = before ++ (key, desc) :: after ->
    PyStr.occurs key name ->
    (forall k d, In (k, d) before -> ~ PyStr.occurs k name) ->
    described name desc
| described_fallback :
    (forall k d, In (k, d) descriptions -> ~ PyStr.occurs k name) ->
    described name fallback_description.


Definition readme (root : path) : path := joinpath root "README.md".



(** A small tree to run the generator on. *)
Definition demo_root : path := ["repo"].

Definition demo_world : world :=
  World (list_to_map
           [ (["repo"; "README.md"],
              File "# T
<!-- FIGS_AUTO -->
mid
<!-- TABLES_AUTO -->
end");
             (["repo"; "data"], Directory);
             (["repo"; "data"; "Fig2_Separation_v1.tsv"], File "a");
             (["repo"; "data"; "other.tsv"], File "b");
             (["repo"; "data"; "metadata"; "cells.tsv"], File "c");
             (["repo"; "figs"; "Fig1.pdf"], File "d");
             (["elsewhere"; "x.tsv"], File "e") ])
    [] [].

Definition metadata_only_world : world :=
  World (list_to_map
           [ (["repo"; "README.md"], File "# Title");
             (["repo"; "data"; "metadata"; "cells.tsv"], File "c") ])
    [] [].

End Generator.

(** ** The publisher, [upload_to_zenodo.py] *)

Module Uploader.
Import Pathlib.

(** *** Values the script handles *)

(** A decoded JSON document. An object keeps its items in order, keys
    distinct, as the [dict] that [json.load] builds. *)
Inductive json : Type :=
| JNull
| JBool (b : bool)
| JInt (n : Z)
| JFloat (literal : string)
| JStr (s : string)
| JArr (items : list json)
| JObj (fields : list (string * json)).

(** The exceptions of class [Exception] that the calls can raise. *)
Inductive exception : Type :=
| HTTPError (status : Z)
| RequestException
| JSONDecodeError
| KeyError (key : string)
| TypeError
| AttributeError
| OSError.

(** [SystemExit] is a [BaseException]: [except Exception] lets it pass. *)
Inductive raised : Type :=
| SystemExit (code : Z)
| Error (e : exception).

Fixpoint lookup_field (key : string) (fields : list (string * json))
  : option json :=
  match fields with
  | [] => None
  | (k, v) :: rest => if String.eqb k key then Some v else lookup_field key rest
  end.

(** [v[key]] with a string key *)
Definition subscript (v : json) (key : string) : result exception json :=
  match v with
  | JObj fields =>
      match lookup_field key fields with
      | Some x => Returned x
      | None => Raised (KeyError key)
      end
  | _ => Raised TypeError
  end.

(** [v.get(key, default)] *)
Definition get_default (v : json) (key : string) (default : json)
  : result exception json :=
  match v with
  | JObj fields =>
      match lookup_field key fields with
      | Some x => Returned x
      | None => Returned default
      end
  | _ => Raised AttributeError
  end.

(** [for x in v]: the items of a list, the keys of a dict, the characters
    of a string (each one a string again). *)
Definition iterate (v : json) : result exception (list json) :=
  match v with
  | JArr items => Returned items
  | JObj fields => Returned (map (fun kv => JStr (fst kv)) fields)
  | JStr s =>
      Returned (map (fun c => JStr (String c EmptyString)) (String.list_ascii_of_string s))
  | _ => Raised TypeError
  end.

(** The namespace [parse_args] returns. *)
Record args : Type := Args {
  repo_owner : string;
  repo_name : string;
  tag : string;
  sandbox : bool;
  metadata : string;
  skip_download : bool
}.

(** What [parser.parse_args()] does with the command line: a namespace,
    or [argparse]'s own exit (status 2 after a usage error such as a
    missing [--repo-owner], status 0 after [--help]). *)
Inductive cli : Type :=
| Parsed (a : args)
| Usage_error
| Help_requested.

(** *** Remote calls and the trace of a run *)

Inductive step : Type :=
| Release_lookup
| Asset_download
| Create_deposition
| File_upload
| Publish.

Inductive verb : Type := GET | POST.

(** A call of [requests.get] or [requests.post] with its keyword
    arguments. *)
Record request : Type := Request {
  rq_step : step;
  rq_verb : verb;
  rq_url : string;
  rq_json : option json;
  rq_files : option (string * string);
  rq_headers : list (string * string);
  rq_timeout : Z
}.

Record response : Type := Response {
  status_code : Z;
  content : string;
  json_body : option json
}.

(** What a run does, in order. [Error_report e] is the handler of [main]:
    the message on [stderr] and the traceback. The output of [argparse]
    itself is not recorded. *)
Inductive event : Type :=
| Stdout (line : string)
| Error_report (e : exception)
| Http (rq : request) (outcome : result exception response)
| Json_load (p : pure_path)
| Mkdir (p : pure_path)
| Write_bytes (p : pure_path) (data : string)
| Open_read (p : pure_path)
| Json_dump (p : pure_path) (value : json).

(** Everything outside the script: the command line, the environment,
    the local filesystem and the two remote services. Calls that can be
    repeated see the events so far, so an answer may depend on the whole
    history of the run. *)
Record env : Type := Env {
  command_line : cli;
  ZENODO_TOKEN : option string;
  path_exists : pure_path -> bool;
  load_outcome : pure_path -> result exception json;
  glob_star : pure_path -> list pure_path;
  mkdir_outcome : list event -> pure_path -> result exception unit;
  write_outcome : list event -> pure_path -> string -> result exception unit;
  read_outcome : list event -> pure_path -> result exception string;
  dump_outcome : list event -> pure_path -> json -> result exception unit;
  http_outcome : list event -> request -> result exception response;
  now_isoformat : string
}.

(** *** The monad of the script: environment in, events and a result out *)

Definition M (A : Type) : Type :=
  env -> list event -> list event * result raised A.

Definition ret {A} (a : A) : M A := fun _ _ => ([], Returned a).

Definition raise {A} (e : raised) : M A := fun _ _ => ([], Raised e).

Definition bind {A B} (m : M A) (f : A -> M B) : M B :=
  fun E h =>
    match m E h with
    | (t1, Raised e) => (t1, Raised e)
    | (t1, Returned a) =>
        let '(t2, r) := f a E (h ++ t1) in (t1 ++ t2, r)
    end.

#[export] Instance M_ret : MRet M := @ret.
#[export] Instance M_bind : MBind M := fun A B f m => bind m f.

Definition emit (ev : event) : M unit := fun _ _ => ([ev], Returned tt).

Definition print (line : string) : M unit := emit (Stdout line).

Definition sys_exit {A} (code : Z) : M A := raise (SystemExit code).

Definition lift {A} (r : result exception A) : M A :=
  match r with
  | Returned a => ret a
  | Raised e => raise (Error e)
  end.

Definition ask {A} (f : env -> A) : M A := fun E _ => ([], Returned (f E)).

(** A call into the local filesystem: its event, then what the
    environment answers. *)
Definition local_call {A} (ev : event)
  (outcome : env -> list event -> result exception A) : M A :=
  fun E h =>
    ([ev], match outcome E h with
           | Returned a => Returned a
           | Raised e => Raised (Error e)
           end).

(** [try: body except Exception as e: handler(e)] *)
Definition try_except {A} (body : M A) (handler : exception -> M A) : M A :=
  fun E h =>
    match body E h with
    | (t1, Raised (Error e)) =>
        let '(t2, r) := handler e E (h ++ t1) in (t1 ++ t2, r)
    | other => other
    end.

(** [requests.get(...)] and [requests.post(...)] *)
Definition send (rq : request) : M response :=
  fun E h =>
    let outcome := http_outcome E h rq in
    ([Http rq outcome],
     match outcome with
     | Returned r => Returned r
     | Raised e => Raised (Error e)
     end).

(** [response.ok]: the status is no client or server error. *)
Definition ok (r : response) : bool :=
  negb ((400 <=? status_code r) && (status_code r <? 600)).

(** [response.raise_for_status()] *)
Definition raise_for_status (r : response) : M unit :=
  if ok r then ret tt else raise (Error (HTTPError (status_code r))).

(** [response.json()] *)
Definition response_json (r : response) : M json :=
  match json_body r with
  | Some j => ret j
  | None => raise (Error JSONDecodeError)
  end.

Definition ZENODO_SANDBOX : string := "https://sandbox.zenodo.org/api".
Definition ZENODO_PROD : string := "https://zenodo.org/api".

Definition nl : string := String PyStr.LF EmptyString.

Definition rule : string := PyStr.repeat "=" 70.

Section Script.

(** Python's [str()] on a decoded JSON value, as f-strings apply it. *)
Variable py_str : json -> string.

(** *** [class ZenodoUploader] *)

Record uploader : Type := Uploader {
  token : string;
  base_url : string;
  headers : list (string * string)
}.

(** The attributes [__init__] sets. *)
Definition new_uploader (token : string) (use_sandbox : bool) : uploader :=
  Uploader token
    (if use_sandbox then ZENODO_SANDBOX else ZENODO_PROD)
    [("Authorization", "Bearer " +:+ token)].

Definition ZenodoUploader (token : string) (use_sandbox : bool) : M uploader :=
  let self := new_uploader token use_sandbox in
  print ("✓ Zenodo uploader initialized ("
         +:+ (if use_sandbox then "sandbox" else "production") +:+ ")");;
  ret self.

Definition create_deposition (self : uploader) (metadata : json) : M json :=
  let url := base_url self +:+ "/deposit/depositions" in
  response ← send (Request Create_deposition POST url
                      (Some (JObj [("metadata", metadata)])) None
                      (headers self) 30);
  raise_for_status response;;
  deposition ← response_json response;
  id ← lift (subscript deposition "id");
  print ("✓ Deposition created: " +:+ py_str id);;
  ret deposition.

Definition upload_file (self : uploader) (deposition_id : json)
  (file_path : pure_path) : M json :=
  let bucket_url :=
    base_url self +:+ "/deposit/depositions/" +:+ py_str deposition_id +:+ "/files" in
  response ←
    (f ← local_call (Open_read file_path)
            (fun E h => read_outcome E h file_path);
     send (Request File_upload POST bucket_url None
             (Some (pure_name file_path, f))
             [("Authorization", "Bearer " +:+ token self)] 60));
  raise_for_status response;;
  file_info ← response_json response;
  print ("✓ Uploaded: " +:+ pure_name file_path);;
  ret file_info.

Definition publish_deposition (self : uploader) (deposition_id : json) : M json :=
  let url :=
    base_url self +:+ "/deposit/depositions/" +:+ py_str deposition_id
    +:+ "/actions/publish" in
  response ← send (Request Publish POST url None None (headers self) 30);
  raise_for_status response;;
  deposition ← response_json response;
  meta ← lift (subscript deposition "metadata");
  doi ← lift (get_default meta "doi" (JStr "pending"));
  print ("✓ Published! DOI: " +:+ py_str doi);;
  ret deposition.

(** The body of the [for asset in ...] loop of [download_release]. A
    [browser_download_url] that is no string is refused by [requests]
    before anything is sent. *)
Definition download_asset (download_path : pure_path) (asset : json)
  : M pure_path :=
  download_url ← lift (subscript asset "browser_download_url");
  name ← lift (subscript asset "name");
  file_path ← match name with
               | JStr s => ret (truediv download_path s)
               | _ => raise (Error TypeError)
               end;
  print ("Downloading " +:+ py_str name +:+ "...");;
  response ← match download_url with
              | JStr url => send (Request Asset_download GET url None None [] 60)
              | _ => raise (Error RequestException)
              end;
  raise_for_status response;;
  local_call (Write_bytes file_path (content response))
    (fun E h => write_outcome E h file_path (content response));;
  print ("✓ Downloaded: " +:+ py_str name);;
  ret file_path.

Fixpoint download_assets (download_path : pure_path) (assets : list json)
  (files : list pure_path) : M (list pure_path) :=
  match assets with
  | [] => ret files
  | asset :: rest =>
      file_path ← download_asset download_path asset;
      download_assets download_path rest (files ++ [file_path])
  end.

Definition download_release (self : uploader)
  (repo_owner repo_name tag download_dir : string) : M (list pure_path) :=
  let download_path := Path download_dir in
  local_call (Mkdir download_path) (fun E h => mkdir_outcome E h download_path);;
  let gh_url :=
    "https://api.github.com/repos/" +:+ repo_owner +:+ "/" +:+ repo_name
    +:+ "/releases/tags/" +:+ tag in
  response ← send (Request Release_lookup GET gh_url None None [] 30);
  raise_for_status response;;
  release ← response_json response;
  listed ← lift (get_default release "assets" (JArr []));
  assets ← lift (iterate listed);
  download_assets download_path assets [].

(** *** Module level *)

Definition load_zenodo_metadata (metadata_file : string) : M json :=
  local_call (Json_load (Path metadata_file))
    (fun E _ => load_outcome E (Path metadata_file)).

Fixpoint upload_files (self : uploader) (deposition_id : json)
  (files : list pure_path) : M unit :=
  match files with
  | [] => ret tt
  | file_path :: rest =>
      upload_file self deposition_id file_path;;
      upload_files self deposition_id rest
  end.

(** The [if not args.skip_download: ... else: ...] of [main]. *)
Definition obtain_files (a : args) (self : uploader) : M (list pure_path) :=
  if negb (skip_download a)
  then
    print (nl +:+ "Downloading release " +:+ tag a +:+ "...");;
    download_release self (repo_owner a) (repo_name a) (tag a) "releases"
  else
    present ← ask (fun E => path_exists E (Path "releases"));
    if present : bool then ask (fun E => glob_star E (Path "releases")) else ret [].

Definition record_url (record_id : json) : string :=
  "https://zenodo.org/record/" +:+ py_str record_id.

(** What follows a successful publish: the report and the summary file. *)
Definition report_and_save (a : args) (deposition_id published : json) : M Z :=
  meta ← lift (subscript published "metadata");
  doi ← lift (get_default meta "doi" JNull);
  record_id ← lift (subscript published "record_id");
  print (nl +:+ rule);;
  print "SUCCESS! Zenodo record created and published";;
  print rule;;
  print ("Record ID: " +:+ py_str record_id);;
  print ("DOI: " +:+ py_str doi);;
  print ("URL: " +:+ record_url record_id);;
  print (rule +:+ nl);;
  now ← ask now_isoformat;
  let info :=
    JObj [ ("timestamp", JStr now);
           ("deposition_id", deposition_id);
           ("record_id", record_id);
           ("doi", doi);
           ("url", JStr (record_url record_id));
           ("tag", JStr (tag a)) ] in
  local_call (Json_dump (Path "zenodo_release.json") info)
    (fun E h => dump_outcome E h (Path "zenodo_release.json") info);;
  print "✓ Release info saved to zenodo_release.json";;
  ret 0.

(** The [try] block of [main]. *)
Definition pipeline (a : args) (token : string) : M Z :=
  let metadata_file := metadata a in
  present ← ask (fun E => path_exists E (Path metadata_file));
  (if present : bool then ret tt
   else print ("Error: " +:+ metadata_file +:+ " not found");; sys_exit 1);;
  metadata ← load_zenodo_metadata metadata_file;
  print ("✓ Loaded metadata from " +:+ metadata_file);;
  uploader ← ZenodoUploader token (sandbox a);
  files ← obtain_files a uploader;
  match files with
  | [] => print "No files to upload";; sys_exit 1
  | _ :: _ =>
      print (nl +:+ "Creating Zenodo deposition...");;
      deposition ← create_deposition uploader metadata;
      deposition_id ← lift (subscript deposition "id");
      print (nl +:+ "Uploading files...");;
      upload_files uploader deposition_id files;;
      print (nl +:+ "Publishing deposition...");;
      published ← publish_deposition uploader deposition_id;
      report_and_save a deposition_id published
  end.

(** The events of the [try] block before it looks for the files, when
    the metadata file exists and loads. *)
Definition before_files (a : args) : list event :=
  [ Json_load (Path (metadata a));
    Stdout ("✓ Loaded metadata from " +:+ metadata a);
    Stdout ("✓ Zenodo uploader initialized ("
            +:+ (if sandbox a then "sandbox" else "production") +:+ ")") ].

(** [if not token]: unset or empty. *)
Definition usable_token (t : option string) : option string :=
  match t with
  | Some (String c s) => Some (String c s)
  | _ => None
  end.

Definition main : M Z :=
  parsed ← ask command_line;
  match parsed with
  | Usage_error => sys_exit 2
  | Help_requested => sys_exit 0
  | Parsed a =>
      token ← ask ZENODO_TOKEN;
      match usable_token token with
      | None =>
          print "Error: ZENODO_TOKEN environment variable not set";;
          print "Get token from: https://zenodo.org/account/settings/applications/";;
          sys_exit 1
      | Some token =>
          try_except (pipeline a token)
            (fun e => emit (Error_report e);; ret 1)
      end
  end.

(** [sys.exit(main())]: the events of the run and the exit status of the
    process. *)
Definition script (E : env) : list event * Z :=
  match main E [] with
  | (t, Returned code) => (t, code)
  | (t, Raised (SystemExit code)) => (t, code)
  | (t, Raised (Error _)) => (t, 1)
  end.

End Script.

(** *** A run to compute with *)

Definition demo_str (v : json) : string :=
  match v with
  | JNull => "None"
  | JBool true => "True"
  | JBool false => "False"
  | JInt n => pretty n
  | JFloat literal => literal
  | JStr s => s
  | JArr _ => "[...]"
  | JObj _ => "{...}"
  end.

Definition demo_args (use_sandbox : bool) : args :=
  Args "elkinnavarro-glitch" "immune-state-geometry-scATAC" "v1.0.0"
    use_sandbox ".zenodo.json" false.

Definition demo_release : json :=
  JObj [ ("tag_name", JStr "v1.0.0");
         ("assets",
          JArr [ JObj [ ("name", JStr "tables.zip");
                        ("browser_download_url",
                         JStr "https://github.com/dl/tables.zip") ];
                 JObj [ ("name", JStr "figures.zip");
                        ("browser_download_url",
                         JStr "https://github.com/dl/figures.zip") ] ]) ].

Definition demo_published : json :=
  JObj [ ("id", JInt 42);
         ("record_id", JInt 43);
         ("metadata", JObj [ ("doi", JStr "10.5281/zenodo.43") ]) ].

(** The services answer every call with the given statuses. *)
Definition demo_http (download_status upload_status : Z)
  (h : list event) (rq : request) : result exception response :=
  match rq_step rq with
  | Release_lookup => Returned (Response 200 "" (Some demo_release))
  | Asset_download => Returned (Response download_status "PK" None)
  | Create_deposition => Returned (Response 201 "" (Some (JObj [("id", JInt 42)])))
  | File_upload => Returned (Response upload_status "" (Some (JObj [])))
  | Publish => Returned (Response 202 "" (Some demo_published))
  end.

Definition demo_env (command : cli) (token : option string)
  (download_status upload_status : Z) : env :=
  Env command token
    (fun _ => true)
    (fun _ => Returned (JObj [("title", JStr "Immune state geometry")]))
    (fun _ => [])
    (fun _ _ => Returned tt)
    (fun _ _ _ => Returned tt)
    (fun _ _ => Returned "PK")
    (fun _ _ _ => Returned tt)
    (demo_http download_status upload_status)
    "2025-01-01T00:00:00".

(** No token, no local file, no network. *)
Definition bare_env (command : cli) : env :=
  Env command None
    (fun _ => false)
    (fun _ => Raised OSError)
    (fun _ => [])
    (fun _ _ => Raised OSError)
    (fun _ _ _ => Raised OSError)
    (fun _ _ => Raised OSError)
    (fun _ _ _ => Raised OSError)
    (fun _ _ => Raised RequestException)
    "2025-01-01T00:00:00".

(** A token and a command line with [--skip-download]; every local path
    exists or none does, and the releases directory is empty. *)
Definition skip_args : args :=
  Args "elkinnavarro-glitch" "immune-state-geometry-scATAC" "v1.0.0"
    false ".zenodo.json" true.

Definition local_env (present : bool) : env :=
  Env (Parsed skip_args) (Some "tok")
    (fun _ => present)
    (fun _ => Returned (JObj []))
    (fun _ => [])
    (fun _ _ => Returned tt)
    (fun _ _ _ => Returned tt)
    (fun _ _ => Raised OSError)
    (fun _ _ _ => Returned tt)
    (fun _ _ => Raised RequestException)
    "2025-01-01T00:00:00".

Definition demo_download : request :=
  Request Asset_download GET "https://github.com/dl/tables.zip" None None [] 60.

Definition demo_creation : request :=
  Request Create_deposition POST
    "https://sandbox.zenodo.org/api/deposit/depositions"
    (Some (JObj [("metadata", JObj [("title", JStr "Immune state geometry")])]))
    None [("Authorization", "Bearer tok")] 30.

Definition demo_publish : request :=
  Request Publish POST
    "https://sandbox.zenodo.org/api/deposit/depositions/42/actions/publish"
    None None [("Authorization", "Bearer tok")] 30.

End Uploader.

(** ** What the generator lists, said without loops *)

Module Listing.
Import Pathlib Generator.

(** A pattern without [*] stands for itself. *)
Fixpoint literal (pat : string) : bool :=
  match pat with
  | EmptyString => true
  | String c pat' => negb (Ascii.eqb c "*"%char) && literal pat'
  end.

(** The table is not directly inside a directory called "metadata". *)
Definition not_metadata (p : path) : bool :=
  negb (String.eqb (name (parent p)) "metadata").

(** The markdown line of a table and of a figure. *)
Definition table_line (root p : path) : string :=
  match relative_to p root with
  | Some rel_path => "- `" +:+ str_rel rel_path +:+ "` – " +:+ describe_table p
  | None => EmptyString
  end.

Definition figure_line (root p : path) : string :=
  match relative_to p root with
  | Some rel_path => "- `" +:+ str_rel rel_path +:+ "`"
  | None => EmptyString
  end.

(** An entry of the tree strictly below [root] whose name matches. *)
Definition scanned (w : world) (root : path) (pattern : string) (p : path) : Prop :=
  is_Some (fs w !! p) /\ below root p = true /\ PyStr.fnmatch pattern (name p) = true.

End Listing.

(** ** The order of a publisher run, as an automaton over its events *)

Module Protocol.
Import Uploader.

#[export] Instance exception_eq_dec : EqDecision exception.
Proof. solve_decision. Defined.

Section Automaton.

Context {state : Type} (delta : state -> event -> option state).

(** The state reached by reading a trace, [None] once an event is refused. *)
Fixpoint run (s : state) (t : list event) : option state :=
  match t with
  | [] => Some s
  | ev :: t' =>
      match delta s ev with
      | Some s' => run s' t'
      | None => None
      end
  end.

(** Started in state [s] after any history, [m] emits events the
    automaton accepts, and ends in a state that satisfies [Q] with the
    value returned or [R] with the exception raised. *)
Definition hoare {A} (E : env) (s : state) (m : M A)
  (Q : A -> state -> Prop) (R : raised -> state -> Prop) : Prop :=
  forall h,
    exists s', run s (m E h).1 = Some s' /\
               match (m E h).2 with
               | Returned a => Q a s'
               | Raised e => R e s'
               end.

End Automaton.

(** Where a run stands. [Failing e]: a remote call has failed and [e] is
    on its way to the handler; [Done]: the handler has reported. *)
Inductive phase : Type :=
| Fetching
| Downloading
| Uploading
| Published
| Failing (e : exception)
| Done.

(** The exception a remote call ends in, if any: the one [requests]
    raised, or the [HTTPError] of [raise_for_status]. *)
Definition failure (outcome : result exception response) : option exception :=
  match outcome with
  | Raised e => Some e
  | Returned r => if ok r then None else Some (HTTPError (status_code r))
  end.

Definition after_call (outcome : result exception response) (next : phase) : phase :=
  match failure outcome with
  | Some e => Failing e
  | None => next
  end.

(** The remote calls come in the order lookup, downloads, creation,
    uploads, publication; a failed call is followed by the report of its
    exception and nothing else; after the publication no call is sent;
    every POST goes to an address under [base]. *)
Definition protocol (base : string) (s : phase) (ev : event) : option phase :=
  match ev with
  | Error_report e =>
      match s with
      | Failing e' => if decide (e' = e) then Some Done else None
      | Done => None
      | _ => Some Done
      end
  | Http rq outcome =>
      if match rq_verb rq with
         | POST => PyStr.startswith base (rq_url rq)
         | GET => true
         end
      then
        match s, rq_step rq with
        | Fetching, Release_lookup => Some (after_call outcome Downloading)
        | Downloading, Asset_download => Some (after_call outcome Downloading)
        | Fetching, Create_deposition
        | Downloading, Create_deposition => Some (after_call outcome Uploading)
        | Uploading, File_upload => Some (after_call outcome Uploading)
        | Uploading, Publish => Some (after_call outcome Published)
        | _, _ => None
        end
      else None
  | _ =>
      match s with
      | Failing _ | Done => None
      | _ => Some s
      end
  end.

(** States in which the script is still working. *)
Definition live (s : phase) : Prop :=
  match s with
  | Failing _ | Done => False
  | _ => True
  end.

(** Before the deposition exists. *)
Definition early (s : phase) : Prop := s = Fetching \/ s = Downloading.

(** The handler may report [x] in state [s]: after a failed call, only
    the exception of that call. *)
Definition reportable (s : phase) (x : exception) : Prop :=
  match s with
  | Failing y => y = x
  | Done => False
  | _ => True
  end.

(** An [Exception] is on its way, and it is reportable. *)
Definition failed_with (e : raised) (s : phase) : Prop :=
  exists x, e = Error x /\ reportable s x.

(** As [failed_with], or [sys.exit(1)] before the deposition exists. *)
Definition failed_or_exit (e : raised) (s : phase) : Prop :=
  failed_with e s \/ (e = SystemExit 1 /\ early s).

(** How a run may end: published with status 0, reported with status 1,
    or left early through [sys.exit]. *)
Definition ending (code : Z) (s : phase) : Prop :=
  (code = 0 /\ s = Published) \/ (code = 1 /\ s = Done) \/ early s.

(** The base address the uploader of a run is built with. *)
Definition api_base (E : env) : string :=
  match command_line E with
  | Parsed a => if sandbox a then ZENODO_SANDBOX else ZENODO_PROD
  | _ => EmptyString
  end.

Definition is_http (ev : event) : bool :=
  match ev with Http _ _ => true | _ => false end.

Definition calls (s : step) (ev : event) : bool :=
  match ev with
  | Http rq _ =>
      match s, rq_step rq with
      | Release_lookup, Release_lookup
      | Asset_download, Asset_download
      | Create_deposition, Create_deposition
      | File_upload, File_upload
      | Publish, Publish => true
      | _, _ => false
      end
  | _ => false
  end.

End Protocol.

(** ** What each part of the publisher may do *)

Module Audit.
Import Pathlib Uploader Protocol.

Definition is_report (ev : event) : bool :=
  match ev with Error_report _ => true | _ => false end.

(** After the deposition exists (or the run is over). *)
Definition late (s : phase) : Prop :=
  match s with
  | Fetching | Downloading => False
  | _ => True
  end.

(** The parts of the [try] block of [main]. *)
Inductive stage : Type :=
| Loading
| Fetch
| Creation
| Upload
| Publication
| Summary.

Definition stage_of (s : step) : stage :=
  match s with
  | Release_lookup | Asset_download => Fetch
  | Create_deposition => Creation
  | File_upload => Upload
  | Publish => Publication
  end.

(** [m] emits only events that satisfy [P], and a value it returns
    satisfies [Q]. *)
Definition emits {A} (P : event -> Prop) (E : env) (m : M A) (Q : A -> Prop) : Prop :=
  forall h,
    Forall P (m E h).1 /\
    match (m E h).2 with
    | Returned a => Q a
    | Raised _ => True
    end.

Section Shapes.

Variable py_str : json -> string.
Variable E : env.
Variable a : args.
Variable self : uploader.

(** The arguments each remote call is made with. *)
Definition request_shape (rq : request) : Prop :=
  match rq_step rq with
  | Release_lookup =>
      rq_verb rq = GET /\
      rq_url rq = "https://api.github.com/repos/" +:+ repo_owner a +:+ "/"
                  +:+ repo_name a +:+ "/releases/tags/" +:+ tag a /\
      rq_json rq = None /\ rq_files rq = None /\
      rq_headers rq = [] /\ rq_timeout rq = 30
  | Asset_download =>
      rq_verb rq = GET /\ rq_json rq = None /\ rq_files rq = None /\
      rq_headers rq = [] /\ rq_timeout rq = 60
  | Create_deposition =>
      rq_verb rq = POST /\
      rq_url rq = base_url self +:+ "/deposit/depositions" /\
      (exists md, load_outcome E (Path (metadata a)) = Returned md /\
                  rq_json rq = Some (JObj [("metadata", md)])) /\
      rq_files rq = None /\
      rq_headers rq = headers self /\ rq_timeout rq = 30
  | File_upload =>
      rq_verb rq = POST /\
      (exists id, rq_url rq = base_url self +:+ "/deposit/depositions/"
                              +:+ py_str id +:+ "/files") /\
      rq_json rq = None /\ (exists f, rq_files rq = Some f) /\
      rq_headers rq = [("Authorization", "Bearer " +:+ token self)] /\
      rq_timeout rq = 60
  | Publish =>
      rq_verb rq = POST /\
      (exists id, rq_url rq = base_url self +:+ "/deposit/depositions/"
                              +:+ py_str id +:+ "/actions/publish") /\
      rq_json rq = None /\ rq_files rq = None /\
      rq_headers rq = headers self /\ rq_timeout rq = 30
  end.

(** The events of stage [k]. *)
Definition stage_event (k : stage) (ev : event) : Prop :=
  match ev with
  | Stdout _ => True
  | Error_report _ => False
  | Http rq _ => stage_of (rq_step rq) = k /\ request_shape rq
  | Json_load p => k = Loading /\ p = Path (metadata a)
  | Mkdir p => k = Fetch /\ p = Path "releases"
  | Write_bytes _ _ => k = Fetch
  | Open_read _ => k = Upload
  | Json_dump p _ => k = Summary /\ p = Path "zenodo_release.json"
  end.

(** The events of a run: those of a stage, the fetching stage only
    without [--skip-download], or the report of the handler. *)
Definition run_event (ev : event) : Prop :=
  is_report ev = true \/
  exists k, stage_event k ev /\ (k = Fetch -> skip_download a = false).

End Shapes.


(** The file names and the addresses of the upload calls of a trace. *)
Fixpoint uploads (t : list event) : list (string * string) :=
  match t with
  | [] => []
  | Http rq _ :: t' =>
      match rq_step rq, rq_files rq with
      | File_upload, Some (name, _) => (rq_url rq, name) :: uploads t'
      | _, _ => uploads t'
      end
  | _ :: t' => uploads t'
  end.

(** The address [upload_file] posts to. *)
Definition bucket_url (py_str : json -> string) (self : uploader) (id : json) : string :=
  base_url self +:+ "/deposit/depositions/" +:+ py_str id +:+ "/files".

(** What [download_release] has done for one asset to give one file. *)
Definition fetched (dir : string) (t : list event) (asset : json) (file : pure_path)
  : Prop :=
  exists name url r,
    subscript asset "name" = Returned (JStr name) /\
    subscript asset "browser_download_url" = Returned (JStr url) /\
    file = truediv (Path dir) name /\
    In (Http (Request Asset_download GET url None None [] 60) (Returned r)) t /\
    ok r = true /\
    In (Write_bytes file (content r)) t.

End Audit.

(** * Properties *)

(** ** Facts about the [str] methods *)

Module PyStrFacts.
Import PyStr.

Lemma app_cons_str (c : ascii) (a b : string) :
  String c a +:+ b = String c (a +:+ b).
Proof. reflexivity. Qed.

Lemma startswith_nil (s : string) : startswith "" s = true.
Proof. destruct s; reflexivity. Qed.

Lemma startswith_cons (c d : ascii) (p s : string) :
  startswith (String c p) (String d s) = true <-> c = d /\ startswith p s = true.
Proof.
  unfold startswith; simpl. destruct (ascii_dec c d) as [->|Hne].
  - tauto.
  - split; [discriminate | intros [? _]; contradiction].
Qed.

Lemma startswith_spec (p s : string) :
  startswith p s = true <-> exists rest, s = p +:+ rest.
Proof.
  revert s. induction p as [|c p IH]; intros s.
  - rewrite startswith_nil. split; [exists s; reflexivity | reflexivity].
  - destruct s as [|d s].
    + split; [discriminate | intros [rest H]; discriminate].
    + rewrite startswith_cons, IH. split.
      * intros [-> [rest ->]]. exists rest. reflexivity.
      * intros [rest H]. rewrite app_cons_str in H. injection H as -> ->. eauto.
Qed.

Lemma startswith_app (p rest : string) : startswith p (p +:+ rest) = true.
Proof. apply startswith_spec. eauto. Qed.

Lemma contains_here (sub s : string) :
  startswith sub s = true -> contains sub s = true.
Proof. intros H. destruct s; cbn [contains]; rewrite H; reflexivity. Qed.

Lemma contains_spec (sub s : string) : contains sub s = true <-> occurs sub s.
Proof.
  split.
  - induction s as [|c s IH]; cbn [contains].
    + intros H. apply startswith_spec in H as [rest H].
      exists "", rest. exact H.
    + intros H. apply orb_true_iff in H as [H|H].
      * apply startswith_spec in H as [rest H]. exists "", rest. exact H.
      * destruct (IH H) as (a & b & ->). exists (String c a), b. reflexivity.
  - intros (a & b & ->). induction a as [|c a IH].
    + apply contains_here, startswith_spec. eauto.
    + rewrite app_cons_str. cbn [contains]. rewrite IH. apply orb_true_r.
Qed.

Lemma contains_absent (sub s : string) :
  contains sub s = false <-> ~ occurs sub s.
Proof.
  rewrite <- contains_spec. destruct (contains sub s); split; intros H;
    try discriminate; try reflexivity; try (intros ?; discriminate).
  now destruct H.
Qed.







End PyStrFacts.

(** ** The documentation generator *)

Module GeneratorFacts.
Import Pathlib PyStr PyStrFacts Generator.

(** The loop of [describe_table] stops at the first key occurring in the
    name. *)
Lemma describe_loop_spec (items : list (string * string)) (name : string) :
  match describe_loop items name with
  | Some desc =>
      exists before key after,
        items = before ++ (key, desc) :: after /\
        occurs key name /\
        (forall k d, In (k, d) before -> ~ occurs k name)
  | None => forall k d, In (k, d) items -> ~ occurs k name
  end.
Proof.
  induction items as [|[key desc] rest IH]; cbn [describe_loop].
  - intros k d [].
  - destruct (contains key name) eqn:Hk.
    + exists [], key, rest. split; [reflexivity|]. split.
      * now apply contains_spec.
      * intros k d [].
    + apply contains_absent in Hk.
      destruct (describe_loop rest name) as [d'|].
      * destruct IH as (before & key' & after & -> & Hocc & Hbefore).
        exists ((key, desc) :: before), key', after.
        split; [reflexivity|]. split; [exact Hocc|].
        intros k d [[= <- <-]|Hin]; [exact Hk | eauto].
      * intros k d [[= <- <-]|Hin]; [exact Hk | eauto].
Qed.

(** C6: for every file path, [describe_table] returns the description
    mapped to the first key of the fixed table that occurs as a substring
    of the file's name, and the fallback "Processed analysis table." when
    no key occurs in the name. *)
Theorem describe_table_first_match (filepath : path) :
  described (name filepath) (describe_table filepath).
Proof.
  unfold describe_table.
  pose proof (describe_loop_spec descriptions (name filepath)) as H.
  destruct (describe_loop descriptions (name filepath)) as [desc|].
  - destruct H as (before & key & after & Heq & Hocc & Hbefore).
    exact (described_by_key _ before key desc after Heq Hocc Hbefore).
  - exact (described_fallback _ H).
Qed.

Example describe_table_two_keys :
  describe_table ["repo"; "data"; "ED2_TDA_Fig2_Separation.tsv"]
  = "State separation metrics and pairwise distances (Fig. 2).".
Proof. reflexivity. Qed.

Example describe_table_unknown :
  describe_table ["repo"; "data"; "counts.tsv"] = "Processed analysis table.".
Proof. reflexivity. Qed.

(** *** Section generators on a tree without qualifying files *)

Lemma sorted_nil : sorted [] = [].
Proof. reflexivity. Qed.

Lemma sorted_Forall (P : path -> Prop) (ps : list path) :
  Forall P ps -> Forall P (sorted ps).
Proof.
  intros H. unfold sorted. now rewrite merge_sort_Permutation.
Qed.

Lemma table_lines_metadata (root : path) (files : list path) :
  Forall (fun p => name (parent p) = "metadata") files ->
  table_lines root files = Returned [].
Proof.
  induction 1 as [|p ps Hp _ IH]; cbn [table_lines]; [reflexivity|].
  rewrite Hp. exact IH.
Qed.

(** C7: when the scan below the root finds no TSV table (or only tables
    of a "metadata" directory, which are skipped), the tables section is
    the defined placeholder text; when it finds no figure PDF, the figures
    section is its placeholder text. The placeholders are not empty and
    the generators return, they do not raise. *)
Theorem sections_placeholder (w : world) (root : path) :
  (rglob w root "*.tsv" = [] ->
   generate_tables_section w root = Returned no_tables_yet) /\
  (Forall (fun p => name (parent p) = "metadata") (rglob w root "*.tsv") ->
   generate_tables_section w root = Returned no_tables_yet \/
   generate_tables_section w root = Returned no_tables) /\
  (rglob w root "Fig*.pdf" = [] ->
   generate_figures_section w root = Returned no_figures_yet) /\
  no_tables_yet <> "" /\ no_tables <> "" /\ no_figures_yet <> "".
Proof.
  repeat split; try discriminate.
  - intros H. unfold generate_tables_section, get_tsv_files.
    rewrite H. reflexivity.
  - intros H. unfold generate_tables_section, get_tsv_files.
    apply sorted_Forall in H.
    destruct (sorted (rglob w root "*.tsv")) as [|p ps]; [now left|].
    rewrite (table_lines_metadata _ _ H). now right.
  - intros H. unfold generate_figures_section, get_pdf_figures.
    rewrite H. reflexivity.
Qed.

(** The placeholders on a tree whose only table is a metadata table and
    that holds no figure. *)
Lemma sections_placeholder_witness :
  generate_tables_section metadata_only_world demo_root = Returned no_tables /\
  generate_figures_section metadata_only_world demo_root = Returned no_figures_yet /\
  generate_tables_section (World ∅ [] []) demo_root = Returned no_tables_yet.
Proof.
  destruct (sections_placeholder metadata_only_world demo_root)
    as (_ & Hmeta & Hfig & _).
  destruct (sections_placeholder (World ∅ [] []) demo_root) as (Hnone & _).
  split; [|split].
  - destruct Hmeta as [H|H].
    + vm_compute. repeat constructor.
    + vm_compute in H. discriminate H.
    + exact H.
  - apply Hfig. vm_compute. reflexivity.
  - apply Hnone. vm_compute. reflexivity.
Defined.

(** *** [update_readme] and [main] *)

Example main_on_demo_tree :
  let w := (main demo_root "2025-01-01T00:00:00" demo_world).1 in
  fs w !! ["repo"; "README.md"]
  = Some (File ("# T" +:+ "
- `figs/Fig1.pdf`
mid
- `data/Fig2_Separation_v1.tsv` – State separation metrics and pairwise distances (Fig. 2).
- `data/other.tsv` – Processed analysis table.
end")) /\
  length (stdout w) = 19%nat /\ stderr w = [].
Proof. vm_compute. repeat split. Qed.



(** C9: when README.md does not exist under the root, [update_readme]
    writes no file: it prints the warning on [stderr] and returns, and the
    filesystem (and [stdout]) is as before. *)
Theorem update_readme_missing (root : path) (tables figs : string) (w : world) :
  fs w !! readme root = None ->
  update_readme root tables figs w
  = (World (fs w) (stdout w)
       (stderr w ++ ["Warning: README.md not found at " +:+ str_abs (readme root)]),
     Returned tt).
Proof.
  intros H. unfold update_readme, exists_. fold (readme root).
  rewrite H. reflexivity.
Qed.

Lemma update_readme_missing_witness :
  update_readme ["elsewhere"] "T" "F" demo_world
  = (World (fs demo_world) []
       ["Warning: README.md not found at /elsewhere/README.md"],
     Returned tt).
Proof. apply (update_readme_missing ["elsewhere"] "T" "F" demo_world). reflexivity. Defined.







End GeneratorFacts.

(** ** The publisher *)

Module UploaderFacts.
Import Pathlib PyStr PyStrFacts Uploader Protocol.

(** *** Rules for sequencing *)

Section Rules.

Context {state : Type} (delta : state -> event -> option state) (E : env).

Lemma run_app (s : state) (t1 t2 : list event) :
  run delta s (t1 ++ t2) = run delta s t1 ≫= fun s1 => run delta s1 t2.
Proof.
  revert s. induction t1 as [|ev t1 IH]; intros s; cbn; [reflexivity|].
  destruct (delta s ev); [apply IH | reflexivity].
Qed.

Lemma hoare_ret {A} (s : state) (a : A) Q R :
  Q a s -> hoare delta E s (ret a) Q R.
Proof. intros H h. exists s. auto. Qed.

Lemma hoare_raise {A} (s : state) (e : raised) (Q : A -> state -> Prop) R :
  R e s -> hoare delta E s (raise e) Q R.
Proof. intros H h. exists s. auto. Qed.

Lemma hoare_conseq {A} (s : state) (m : M A) (Q Q' : A -> state -> Prop) R R' :
  hoare delta E s m Q' R' ->
  (forall a s', Q' a s' -> Q a s') ->
  (forall e s', R' e s' -> R e s') ->
  hoare delta E s m Q R.
Proof.
  intros H HQ HR h. destruct (H h) as (s' & Hrun & Hpost).
  exists s'. split; [exact Hrun|].
  destruct (m E h).2; auto.
Qed.

Lemma hoare_bind {A B} (s : state) (m : M A) (f : A -> M B) Q' Q R :
  hoare delta E s m Q' R ->
  (forall a s', Q' a s' -> hoare delta E s' (f a) Q R) ->
  hoare delta E s (m ≫= f) Q R.
Proof.
  intros Hm Hf h. destruct (Hm h) as (s1 & Hrun & Hpost).
  unfold mbind, M_bind, bind.
  destruct (m E h) as [t1 [a|e]]; cbn in *.
  - destruct (Hf a s1 Hpost (h ++ t1)) as (s2 & Hrun2 & Hpost2).
    destruct (f a E (h ++ t1)) as [t2 r2]; cbn in *.
    exists s2. split; [|exact Hpost2].
    rewrite run_app, Hrun. exact Hrun2.
  - exists s1. auto.
Qed.

Lemma hoare_emit (s s' : state) (ev : event) Q R :
  delta s ev = Some s' -> Q tt s' -> hoare delta E s (emit ev) Q R.
Proof. intros Hd HQ h. exists s'. cbn. rewrite Hd. auto. Qed.

Lemma hoare_lift {A} (s : state) (r : result exception A) (Q : A -> state -> Prop) R :
  (forall a, r = Returned a -> Q a s) ->
  (forall e, r = Raised e -> R (Error e) s) ->
  hoare delta E s (lift r) Q R.
Proof. intros HQ HR h. exists s. destruct r; cbn; auto. Qed.

Lemma hoare_ask {A} (s : state) (f : env -> A) (Q : A -> state -> Prop) R :
  Q (f E) s -> hoare delta E s (ask f) Q R.
Proof. intros H h. exists s. auto. Qed.

Lemma hoare_local_call {A} (s s' : state) (ev : event) outcome
  (Q : A -> state -> Prop) R :
  delta s ev = Some s' ->
  (forall a, Q a s') ->
  (forall e, R (Error e) s') ->
  hoare delta E s (local_call ev outcome) Q R.
Proof.
  intros Hd HQ HR h. exists s'. cbn. rewrite Hd. split; [reflexivity|].
  destruct (outcome E h); auto.
Qed.

Lemma hoare_send (s : state) (rq : request) (Q : response -> state -> Prop) R :
  (forall outcome,
     exists s', delta s (Http rq outcome) = Some s' /\
                match outcome with
                | Returned r => Q r s'
                | Raised e => R (Error e) s'
                end) ->
  hoare delta E s (send rq) Q R.
Proof.
  intros H h. destruct (H (http_outcome E h rq)) as (s' & Hd & Hpost).
  exists s'. cbn. rewrite Hd. split; [reflexivity|].
  destruct (http_outcome E h rq); exact Hpost.
Qed.

Lemma hoare_try {A} (s : state) (body : M A) (handler : exception -> M A) Q R R' :
  hoare delta E s body Q R' ->
  (forall e s', R' (Error e) s' -> hoare delta E s' (handler e) Q R) ->
  (forall c s', R' (SystemExit c) s' -> R (SystemExit c) s') ->
  hoare delta E s (try_except body handler) Q R.
Proof.
  intros Hb Hh Hx h. destruct (Hb h) as (s1 & Hrun & Hpost).
  unfold try_except.
  destruct (body E h) as [t1 [a|[c|e]]]; cbn in *.
  - exists s1. auto.
  - exists s1. auto.
  - destruct (Hh e s1 Hpost (h ++ t1)) as (s2 & Hrun2 & Hpost2).
    destruct (handler e E (h ++ t1)) as [t2 r2]; cbn in *.
    exists s2. split; [|exact Hpost2].
    rewrite run_app, Hrun. exact Hrun2.
Qed.

End Rules.

(** *** Every run follows the protocol *)

Section Conformance.

Variable py_str : json -> string.
Variable E : env.
Variable base : string.

Local Abbreviation triple := (hoare (protocol base) E).

Lemma live_reportable (s : phase) (x : exception) : live s -> reportable s x.
Proof. destruct s; cbn; tauto. Qed.

Lemma early_live (s : phase) : early s -> live s.
Proof. intros [-> | ->]; exact I. Qed.

Lemma print_then {B} (s : phase) (line : string) (k : unit -> M B) Q R :
  live s -> triple s (k tt) Q R -> triple s (print line ≫= k) Q R.
Proof.
  intros Hs Hk. eapply hoare_bind with (Q' := fun _ s' => s' = s).
  - apply hoare_emit with (s' := s); [destruct s; cbn in *; tauto | reflexivity].
  - intros [] s' ->. exact Hk.
Qed.

Lemma lift_then {A B} (s : phase) (r : result exception A) (k : A -> M B) Q
  (R : raised -> phase -> Prop) :
  live s -> (forall e s', failed_with e s' -> R e s') ->
  (forall a, r = Returned a -> triple s (k a) Q R) ->
  triple s (lift r ≫= k) Q R.
Proof.
  intros Hs HR Hk. eapply hoare_bind with (Q' := fun a s' => s' = s /\ r = Returned a).
  - apply hoare_lift; [auto|].
    intros e _. apply HR. exists e. split; [reflexivity | now apply live_reportable].
  - intros a s' [-> Ha]. auto.
Qed.

Lemma ask_then {A B} (s : phase) (f : env -> A) (k : A -> M B) Q R :
  triple s (k (f E)) Q R -> triple s (ask f ≫= k) Q R.
Proof.
  intros Hk. eapply hoare_bind with (Q' := fun a s' => s' = s /\ a = f E).
  - apply hoare_ask. auto.
  - intros a s' [-> ->]. exact Hk.
Qed.

Lemma local_then {A B} (s : phase) (ev : event) outcome (k : A -> M B) Q
  (R : raised -> phase -> Prop) :
  live s -> is_http ev = false -> (forall e, ev <> Error_report e) ->
  (forall e s', failed_with e s' -> R e s') ->
  (forall a, triple s (k a) Q R) ->
  triple s (local_call ev outcome ≫= k) Q R.
Proof.
  intros Hs Hev Hne HR Hk. eapply hoare_bind with (Q' := fun _ s' => s' = s).
  - apply hoare_local_call with (s' := s).
    + destruct ev; try discriminate; try (now destruct s; cbn in *; tauto).
      now destruct (Hne e).
    + reflexivity.
    + intros e. apply HR. exists e. split; [reflexivity | now apply live_reportable].
  - intros a s' ->. apply Hk.
Qed.

Lemma send_then {B} (s next : phase) (rq : request) (k : response -> M B) Q
  (R : raised -> phase -> Prop) :
  (forall outcome, protocol base s (Http rq outcome) = Some (after_call outcome next)) ->
  (forall e s', failed_with e s' -> R e s') ->
  (forall r, triple (after_call (Returned r) next) (k r) Q R) ->
  triple s (send rq ≫= k) Q R.
Proof.
  intros Hd HR Hk.
  eapply hoare_bind with (Q' := fun r s' => s' = after_call (Returned r) next).
  - apply hoare_send. intros outcome. exists (after_call outcome next).
    split; [apply Hd|]. destruct outcome as [r|e]; [reflexivity|].
    apply HR. exists e. split; reflexivity.
  - intros r s' ->. apply Hk.
Qed.

Lemma status_then {B} (next : phase) (r : response) (k : unit -> M B) Q
  (R : raised -> phase -> Prop) :
  (forall e s', failed_with e s' -> R e s') ->
  (ok r = true -> triple next (k tt) Q R) ->
  triple (after_call (Returned r) next) (raise_for_status r ≫= k) Q R.
Proof.
  intros HR Hk. unfold raise_for_status, after_call, failure.
  destruct (ok r).
  - eapply hoare_bind with (Q' := fun _ s' => s' = next).
    + now apply hoare_ret.
    + intros [] s' ->. now apply Hk.
  - eapply hoare_bind with (Q' := fun _ _ => False).
    + apply hoare_raise. apply HR. eexists. split; reflexivity.
    + intros _ _ [].
Qed.

Lemma json_then {B} (s : phase) (r : response) (k : json -> M B) Q
  (R : raised -> phase -> Prop) :
  live s -> (forall e s', failed_with e s' -> R e s') ->
  (forall j, json_body r = Some j -> triple s (k j) Q R) ->
  triple s (response_json r ≫= k) Q R.
Proof.
  intros Hs HR Hk. unfold response_json.
  destruct (json_body r) as [j|].
  - eapply hoare_bind with (Q' := fun a s' => s' = s /\ a = j).
    + now apply hoare_ret.
    + intros a s' [-> ->]. now apply Hk.
  - eapply hoare_bind with (Q' := fun _ _ => False).
    + apply hoare_raise. apply HR. eexists. split; [reflexivity|].
      now apply live_reportable.
    + intros _ _ [].
Qed.

Lemma call_then {A B} (s : phase) (m : M A) (k : A -> M B) Q' Q
  (R : raised -> phase -> Prop) :
  triple s m Q' failed_with ->
  (forall e s', failed_with e s' -> R e s') ->
  (forall a s', Q' a s' -> triple s' (k a) Q R) ->
  triple s (m ≫= k) Q R.
Proof.
  intros Hm HR Hk. eapply hoare_bind; [|exact Hk].
  eapply hoare_conseq; [exact Hm | auto | exact HR].
Qed.

Lemma failed_with_or_exit (e : raised) (s : phase) :
  failed_with e s -> failed_or_exit e s.
Proof. now left. Qed.

#[local] Arguments startswith : simpl never.
#[local] Hint Resolve early_live failed_with_or_exit : core.

Ltac hstep :=
  lazymatch goal with
  | |- hoare _ _ _ (print _ ≫= _) _ _ =>
      apply print_then; [first [exact I | auto] |]
  | |- hoare _ _ _ (lift _ ≫= _) _ _ =>
      apply lift_then; [first [exact I | auto] | auto | intros ? ?]
  | |- hoare _ _ _ (ask _ ≫= _) _ _ => apply ask_then
  | |- hoare _ _ _ (response_json _ ≫= _) _ _ =>
      apply json_then; [first [exact I | auto] | auto | intros ? ?]
  | |- hoare _ _ _ (raise_for_status _ ≫= _) _ _ =>
      apply status_then; [auto | intros ?]
  | |- hoare _ _ _ (local_call _ _ ≫= _) _ _ =>
      apply local_then;
      [first [exact I | auto] | reflexivity | discriminate | auto | intros ?]
  | |- hoare _ _ _ (ret _) _ _ => apply hoare_ret
  end.

Lemma ZenodoUploader_spec (s : phase) (tok : string) (sb : bool) :
  live s ->
  triple s (ZenodoUploader tok sb)
    (fun u s' => s' = s /\ u = new_uploader tok sb) failed_with.
Proof. intros Hs. unfold ZenodoUploader. repeat hstep. auto. Qed.

Lemma create_deposition_spec (s : phase) (self : uploader) (md : json) :
  base_url self = base -> early s ->
  triple s (create_deposition py_str self md) (fun _ s' => s' = Uploading) failed_with.
Proof.
  intros Hb Hs. unfold create_deposition.
  apply send_then with (next := Uploading); [|auto|intros r].
  - intros outcome. cbn. rewrite Hb, startswith_app.
    destruct Hs as [-> | ->]; reflexivity.
  - repeat hstep. reflexivity.
Qed.

Lemma upload_file_spec (self : uploader) (id : json) (file_path : pure_path) :
  base_url self = base ->
  triple Uploading (upload_file py_str self id file_path)
    (fun _ s' => s' = Uploading) failed_with.
Proof.
  intros Hb. unfold upload_file.
  eapply call_then with
    (Q' := fun r s' => s' = after_call (Returned r) Uploading); [|auto|].
  - hstep.
    eapply hoare_conseq with
      (Q' := fun r s' => s' = after_call (Returned r) Uploading)
      (R' := failed_with); [|auto|auto].
    apply hoare_send. intros outcome. exists (after_call outcome Uploading).
    split.
    + cbn. rewrite Hb, startswith_app. reflexivity.
    + destruct outcome as [r|e]; [reflexivity|].
      exists e. split; reflexivity.
  - intros r s' ->. repeat hstep. reflexivity.
Qed.

Lemma upload_files_spec (self : uploader) (id : json) (files : list pure_path) :
  base_url self = base ->
  triple Uploading (upload_files py_str self id files)
    (fun _ s' => s' = Uploading) failed_with.
Proof.
  intros Hb. induction files as [|f files IH]; cbn [upload_files].
  - now apply hoare_ret.
  - eapply call_then; [now apply upload_file_spec | auto |].
    intros _ s' ->. exact IH.
Qed.

Lemma publish_deposition_spec (self : uploader) (id : json) :
  base_url self = base ->
  triple Uploading (publish_deposition py_str self id)
    (fun _ s' => s' = Published) failed_with.
Proof.
  intros Hb. unfold publish_deposition.
  apply send_then with (next := Published); [|auto|intros r].
  - intros outcome. cbn. rewrite Hb, startswith_app. reflexivity.
  - repeat hstep. reflexivity.
Qed.

Lemma download_asset_spec (download_path : pure_path) (asset : json) :
  triple Downloading (download_asset py_str download_path asset)
    (fun _ s' => s' = Downloading) failed_with.
Proof.
  unfold download_asset.
  apply lift_then; [exact I | auto | intros download_url _].
  apply lift_then; [exact I | auto | intros name _].
  eapply hoare_bind with (Q' := fun _ s' => s' = Downloading).
  { destruct name; try (apply hoare_raise; eexists; split; reflexivity).
    now apply hoare_ret. }
  intros file_path s' ->. hstep.
  destruct download_url as [| | | |url| |].
  5:{ apply send_then with (next := Downloading); [|auto|intros r].
      - intros outcome. reflexivity.
      - repeat hstep. reflexivity. }
  all: eapply hoare_bind with (Q' := fun _ _ => False);
    [apply hoare_raise; eexists; split; reflexivity | intros _ _ []].
Qed.

Lemma download_assets_spec (download_path : pure_path) (assets : list json)
  (files : list pure_path) :
  triple Downloading (download_assets py_str download_path assets files)
    (fun _ s' => s' = Downloading) failed_with.
Proof.
  revert files. induction assets as [|asset assets IH]; intros files;
    cbn [download_assets].
  - now apply hoare_ret.
  - eapply call_then; [apply download_asset_spec | auto |].
    intros file_path s' ->. apply IH.
Qed.

Lemma download_release_spec (self : uploader) (owner name tag dir : string) :
  triple Fetching (download_release py_str self owner name tag dir)
    (fun _ s' => s' = Downloading) failed_with.
Proof.
  unfold download_release. hstep.
  apply send_then with (next := Downloading); [|auto|intros r].
  - intros outcome. reflexivity.
  - repeat hstep. apply download_assets_spec.
Qed.

Lemma obtain_files_spec (a : args) (self : uploader) :
  triple Fetching (obtain_files py_str a self) (fun _ s' => early s') failed_with.
Proof.
  unfold obtain_files. destruct (skip_download a); cbn [negb].
  - hstep. destruct (path_exists E (Path "releases")).
    + apply hoare_ask. now left.
    + apply hoare_ret. now left.
  - hstep. eapply hoare_conseq; [apply download_release_spec | | auto].
    intros _ s' ->. now right.
Qed.

Lemma report_and_save_spec (a : args) (id published : json) :
  triple Published (report_and_save py_str a id published)
    (fun code s' => code = 0 /\ s' = Published) failed_with.
Proof. unfold report_and_save. repeat hstep. auto. Qed.

Lemma pipeline_spec (a : args) (tok : string) :
  base = (if sandbox a then ZENODO_SANDBOX else ZENODO_PROD) ->
  triple Fetching (pipeline py_str a tok)
    (fun code s' => code = 0 /\ s' = Published) failed_or_exit.
Proof.
  intros Hb. unfold pipeline. cbv zeta. hstep.
  eapply hoare_bind with (Q' := fun _ s' => s' = Fetching).
  { destruct (path_exists E (Path (metadata a))).
    - now apply hoare_ret.
    - hstep. apply hoare_raise. right. split; [reflexivity | now left]. }
  intros _ s' ->. unfold load_zenodo_metadata. repeat hstep.
  eapply call_then; [now apply ZenodoUploader_spec | auto |].
  intros uploader s' [-> ->].
  eapply call_then; [apply obtain_files_spec | auto |].
  intros files s' Hs. destruct files as [|f files].
  - hstep. apply hoare_raise. right. split; [reflexivity | exact Hs].
  - hstep.
    eapply call_then;
      [apply create_deposition_spec; [now rewrite Hb | exact Hs] | auto |].
    intros deposition s'' ->. repeat hstep.
    eapply call_then; [apply upload_files_spec; now rewrite Hb | auto |].
    intros _ s'' ->. hstep.
    eapply call_then; [apply publish_deposition_spec; now rewrite Hb | auto |].
    intros published s'' ->.
    eapply hoare_conseq; [apply report_and_save_spec | auto | auto].
Qed.

End Conformance.

(** Every run is accepted by the protocol, with the base address of its
    command line, and ends as [ending] says. *)
Lemma main_spec (py_str : json -> string) (E : env) :
  hoare (protocol (api_base E)) E Fetching (main py_str)
    (fun code s' => (code = 0 /\ s' = Published) \/ (code = 1 /\ s' = Done))
    (fun e s' => exists c, e = SystemExit c /\ early s').
Proof.
  unfold main. apply ask_then.
  unfold api_base. destruct (command_line E) as [a| |].
  - apply ask_then. destruct (usable_token (ZENODO_TOKEN E)) as [tok|].
    + eapply hoare_try with (R' := failed_or_exit).
      * eapply hoare_conseq; [now apply pipeline_spec | | auto].
        intros code s' H. now left.
      * intros e s' [(x & [= ->] & Hx) | [[=] _]].
        eapply hoare_bind with (Q' := fun _ s'' => s'' = Done).
        -- apply hoare_emit with (s' := Done); [|reflexivity].
           destruct s'; cbn in *; try reflexivity; [|contradiction].
           subst. now rewrite decide_True.
        -- intros _ s'' ->. apply hoare_ret. now right.
      * intros c s' [(x & [=] & _) | [[= ->] Hs]]. eauto.
    + do 2 (apply print_then; [exact I|]).
      apply hoare_raise. exists 1. split; [reflexivity | now left].
  - apply hoare_raise. exists 2. split; [reflexivity | now left].
  - apply hoare_raise. exists 0. split; [reflexivity | now left].
Qed.

Lemma script_conforms (py_str : json -> string) (E : env) :
  exists s', run (protocol (api_base E)) Fetching (script py_str E).1 = Some s'
             /\ ending (script py_str E).2 s'.
Proof.
  destruct (main_spec py_str E []) as (s' & Hrun & Hpost).
  exists s'. unfold script, ending.
  destruct (main py_str E []) as [t [code|[c|e]]]; cbn in *.
  - split; [exact Hrun | tauto].
  - split; [exact Hrun|]. destruct Hpost as (c' & _ & Hs). auto.
  - destruct Hpost as (c' & [=] & _).
Qed.

(** *** What the protocol implies *)

Section Accepted.

Variable base : string.

Lemma run_done (t : list event) (s' : phase) :
  run (protocol base) Done t = Some s' -> t = [] /\ s' = Done.
Proof.
  destruct t as [|ev t]; cbn; [now intros [= <-]|].
  destruct ev; cbn; try discriminate.
  destruct (match rq_verb rq with POST => _ | GET => _ end); discriminate.
Qed.

Lemma run_failing (e : exception) (t : list event) (s' : phase) :
  run (protocol base) (Failing e) t = Some s' ->
  (t = [] /\ s' = Failing e) \/ (t = [Error_report e] /\ s' = Done).
Proof.
  destruct t as [|ev t]; cbn; [intros [= <-]; now left|].
  destruct ev; cbn; try discriminate.
  - destruct (decide (e = e0)) as [<-|]; [|discriminate].
    intros H. apply run_done in H as [-> ->]. now right.
  - destruct (match rq_verb rq with POST => _ | GET => _ end); discriminate.
Qed.

Lemma call_accepted (s s1 : phase) (rq : request) outcome :
  protocol base s (Http rq outcome) = Some s1 ->
  exists next,
    s1 = after_call outcome next /\
    match rq_step rq with
    | Release_lookup => s = Fetching /\ next = Downloading
    | Asset_download => s = Downloading /\ next = Downloading
    | Create_deposition => early s /\ next = Uploading
    | File_upload => s = Uploading /\ next = Uploading
    | Publish => s = Uploading /\ next = Published
    end.
Proof.
  cbn. destruct (match rq_verb rq with POST => _ | GET => _ end); [|discriminate].
  destruct s, (rq_step rq); intros [= <-]; eexists; unfold early; eauto.
Qed.

Lemma run_published (t : list event) (s' : phase) :
  run (protocol base) Published t = Some s' ->
  Forall (fun ev => is_http ev = false) t.
Proof.
  induction t as [|ev t IH]; [constructor|].
  cbn [run]. destruct (protocol base Published ev) as [s1|] eqn:Hd; [|discriminate].
  intros H. destruct ev; cbn in Hd;
    try (injection Hd as <-; constructor; [reflexivity | exact (IH H)]).
  - injection Hd as <-. apply run_done in H as [-> _]. repeat constructor.
  - destruct (match rq_verb rq with POST => _ | GET => _ end), (rq_step rq);
      discriminate.
Qed.

(** Up to a state before the deposition, no deposition was created. *)
Lemma run_early (s s1 : phase) (t : list event) :
  run (protocol base) s t = Some s1 -> early s1 ->
  early s /\ Forall (fun ev => calls Create_deposition ev = false) t.
Proof.
  revert s. induction t as [|ev t IH]; intros s; cbn [run].
  - intros [= ->] Hs. split; [exact Hs | constructor].
  - destruct (protocol base s ev) as [s2|] eqn:Hd; [|discriminate].
    intros H Hs1. destruct (IH s2 H Hs1) as [Hs2 Ht].
    destruct ev.
    + cbn in Hd. destruct s; try discriminate; injection Hd as <-;
        (split; [exact Hs2 | constructor; [reflexivity | exact Ht]]).
    + cbn in Hd. destruct Hs2 as [-> | ->]; destruct s; try discriminate;
        destruct (decide _); discriminate.
    + apply call_accepted in Hd as (next & -> & Hstep).
      unfold after_call in Hs2. destruct (failure outcome).
      { destruct Hs2; discriminate. }
      destruct (rq_step rq) eqn:Hst; destruct Hstep as [Hs ->];
        try (destruct Hs2; discriminate);
        (split; [subst; unfold early; auto
                | constructor; [cbn; now rewrite Hst | exact Ht]]).
    + cbn in Hd. destruct s; try discriminate; injection Hd as <-;
        (split; [exact Hs2 | constructor; [reflexivity | exact Ht]]).
    + cbn in Hd. destruct s; try discriminate; injection Hd as <-;
        (split; [exact Hs2 | constructor; [reflexivity | exact Ht]]).
    + cbn in Hd. destruct s; try discriminate; injection Hd as <-;
        (split; [exact Hs2 | constructor; [reflexivity | exact Ht]]).
    + cbn in Hd. destruct s; try discriminate; injection Hd as <-;
        (split; [exact Hs2 | constructor; [reflexivity | exact Ht]]).
    + cbn in Hd. destruct s; try discriminate; injection Hd as <-;
        (split; [exact Hs2 | constructor; [reflexivity | exact Ht]]).
Qed.

End Accepted.

(** The states around one remote call of a run. *)
Lemma script_around_call (py_str : json -> string) (E : env)
  (pre post : list event) (rq : request) outcome :
  (script py_str E).1 = pre ++ Http rq outcome :: post ->
  exists s1 s2 s',
    run (protocol (api_base E)) Fetching pre = Some s1 /\
    protocol (api_base E) s1 (Http rq outcome) = Some s2 /\
    run (protocol (api_base E)) s2 post = Some s' /\
    ending (script py_str E).2 s'.
Proof.
  intros Ht. destruct (script_conforms py_str E) as (s' & Hrun & Hend).
  rewrite Ht, run_app in Hrun.
  destruct (run (protocol (api_base E)) Fetching pre) as [s1|];
    cbn [mbind option_bind run] in Hrun; [|discriminate].
  destruct (protocol (api_base E) s1 (Http rq outcome)) as [s2|] eqn:Hd;
    [|discriminate].
  eauto 8.
Qed.

(** C3: when a remote call of a run fails (the release lookup, an asset
    download, the creation of the deposition, a file upload or the
    publication answers with a non-success status, or [requests] raises),
    the exception of that call aborts the run: after the call the only
    event is the handler's report of that exception, no later step of the
    pipeline runs, and the exit status is 1. In particular no deposition
    is created in a run with a failing asset download. *)
Theorem failed_call_aborts (py_str : json -> string) (E : env)
  (pre post : list event) (rq : request) outcome (e : exception) :
  (script py_str E).1 = pre ++ Http rq outcome :: post ->
  failure outcome = Some e ->
  post = [Error_report e] /\
  (script py_str E).2 = 1 /\
  (rq_step rq = Asset_download ->
   Forall (fun ev => calls Create_deposition ev = false) (script py_str E).1).
Proof.
  intros Ht Hfail.
  destruct (script_around_call py_str E pre post rq outcome Ht)
    as (s1 & s2 & s' & Hpre & Hd & Hpost & Hend).
  apply call_accepted in Hd as (next & -> & Hstep).
  unfold after_call in Hpost. rewrite Hfail in Hpost.
  apply run_failing in Hpost as [[-> ->] | [-> ->]].
  - destruct Hend as [[_ [=]] | [[_ [=]] | [[=] | [=]]]].
  - split; [reflexivity|]. split.
    + destruct Hend as [[_ [=]] | [[-> _] | [[=] | [=]]]]. reflexivity.
    + intros Hdl. rewrite Hdl in Hstep. destruct Hstep as [-> _].
      apply run_early in Hpre as [_ Hno]; [|now right].
      rewrite Ht. apply Forall_app. split; [exact Hno|].
      constructor; [cbn; now rewrite Hdl|]. repeat constructor.
Qed.

(** C8: once the publication request has been sent, the run sends no
    further remote request: every later event is local (printing, the
    summary file, the error report). *)
Theorem no_call_after_publish (py_str : json -> string) (E : env)
  (pre post : list event) (rq : request) outcome :
  (script py_str E).1 = pre ++ Http rq outcome :: post ->
  rq_step rq = Publish ->
  Forall (fun ev => is_http ev = false) post.
Proof.
  intros Ht Hpub.
  destruct (script_around_call py_str E pre post rq outcome Ht)
    as (s1 & s2 & s' & _ & Hd & Hpost & _).
  apply call_accepted in Hd as (next & -> & Hstep).
  rewrite Hpub in Hstep. destruct Hstep as [_ ->].
  unfold after_call in Hpost. destruct (failure outcome) as [e|].
  - apply run_failing in Hpost as [[-> _] | [-> _]]; repeat constructor.
  - exact (run_published _ _ _ Hpost).
Qed.

Lemma failed_call_aborts_witness :
  let E := demo_env (Parsed (demo_args true)) (Some "tok") 404 201 in
  drop 8 (script demo_str E).1 = [Error_report (HTTPError 404)] /\
  (script demo_str E).2 = 1 /\
  Forall (fun ev => calls Create_deposition ev = false) (script demo_str E).1.
Proof.
  cbv zeta.
  pose proof (failed_call_aborts demo_str
                (demo_env (Parsed (demo_args true)) (Some "tok") 404 201)
                (take 7 (script demo_str
                           (demo_env (Parsed (demo_args true)) (Some "tok") 404 201)).1)
                (drop 8 (script demo_str
                           (demo_env (Parsed (demo_args true)) (Some "tok") 404 201)).1)
                demo_download (Returned (Response 404 "PK" None)) (HTTPError 404)
                eq_refl eq_refl) as (Hpost & Hcode & Hnone).
  split; [exact Hpost|]. split; [exact Hcode|]. exact (Hnone eq_refl).
Defined.

Lemma no_call_after_publish_witness :
  Forall (fun ev => is_http ev = false)
    (drop 26 (script demo_str
                (demo_env (Parsed (demo_args true)) (Some "tok") 200 201)).1).
Proof.
  apply (no_call_after_publish demo_str
           (demo_env (Parsed (demo_args true)) (Some "tok") 200 201)
           (take 25 (script demo_str
                       (demo_env (Parsed (demo_args true)) (Some "tok") 200 201)).1)
           _ demo_publish (Returned (Response 202 "" (Some demo_published))));
    reflexivity.
Defined.

(** *** Exit status *)

Lemma script_with_token (py_str : json -> string) (E : env) (a : args) (tok : string) :
  command_line E = Parsed a ->
  usable_token (ZENODO_TOKEN E) = Some tok ->
  script py_str E
  = match pipeline py_str a tok E [] with
    | (t, Returned code) => (t, code)
    | (t, Raised (SystemExit code)) => (t, code)
    | (t, Raised (Error e)) => (t ++ [Error_report e], 1)
    end.
Proof.
  intros Hcl Htok.
  unfold script, main, mbind, M_bind, bind, ask, try_except. cbn.
  rewrite Hcl, Htok. cbn [app].
  destruct (pipeline py_str a tok E []) as [t [code|[code|e]]]; reflexivity.
Qed.

Lemma script_without_token (py_str : json -> string) (E : env) :
  usable_token (ZENODO_TOKEN E) = None ->
  script py_str E
  = match command_line E with
    | Parsed _ =>
        ([Stdout "Error: ZENODO_TOKEN environment variable not set";
          Stdout "Get token from: https://zenodo.org/account/settings/applications/"],
         1)
    | Usage_error => ([], 2)
    | Help_requested => ([], 0)
    end.
Proof.
  intros Htok.
  unfold script, main, mbind, M_bind, bind, ask. cbn.
  destruct (command_line E); [|reflexivity..].
  rewrite Htok. reflexivity.
Qed.

(** C5 as stated fails: with the token unset, a command line the parser
    refuses ends the process with status 2, and [--help] with status 0. *)
Lemma no_token_parser_exit :
  ZENODO_TOKEN (demo_env Usage_error None 200 201) = None /\
  script demo_str (demo_env Usage_error None 200 201) = ([], 2) /\
  (script demo_str (demo_env Usage_error None 200 201)).2 <> 1 /\
  ZENODO_TOKEN (demo_env Help_requested None 200 201) = None /\
  script demo_str (demo_env Help_requested None 200 201) = ([], 0) /\
  (script demo_str (demo_env Help_requested None 200 201)).2 <> 1.
Proof. repeat split; discriminate. Qed.

(** C5, amended: in a run with the token unset (or empty) no network
    call is made, whatever the command line; and when the command line is
    accepted by the argument parser, the run prints the two lines about
    the token and the process exits with status 1. *)
Theorem no_token_no_network (py_str : json -> string) (E : env) :
  usable_token (ZENODO_TOKEN E) = None ->
  Forall (fun ev => is_http ev = false) (script py_str E).1 /\
  (forall a, command_line E = Parsed a ->
     script py_str E
     = ([Stdout "Error: ZENODO_TOKEN environment variable not set";
         Stdout "Get token from: https://zenodo.org/account/settings/applications/"],
        1)).
Proof.
  intros Htok. rewrite (script_without_token py_str E Htok). split.
  - destruct (command_line E); repeat constructor.
  - intros a ->. reflexivity.
Qed.

Lemma no_token_no_network_witness :
  script demo_str (demo_env (Parsed (demo_args false)) (Some "") 200 201)
  = ([Stdout "Error: ZENODO_TOKEN environment variable not set";
      Stdout "Get token from: https://zenodo.org/account/settings/applications/"],
     1).
Proof.
  exact (proj2 (no_token_no_network demo_str
                  (demo_env (Parsed (demo_args false)) (Some "") 200 201) eq_refl)
           (demo_args false) eq_refl).
Defined.

(** C4 as stated fails: with the token unset and the metadata file
    absent, a command line the parser refuses ends the process with
    status 2, and [--help] with status 0. *)
Lemma parser_exit_status :
  ZENODO_TOKEN (bare_env Usage_error) = None /\
  path_exists (bare_env Usage_error) (Path ".zenodo.json") = false /\
  (script demo_str (bare_env Usage_error)).2 = 2 /\
  (script demo_str (bare_env Usage_error)).2 <> 1 /\
  (script demo_str (bare_env Help_requested)).2 = 0 /\
  (script demo_str (bare_env Help_requested)).2 <> 1.
Proof. repeat split; discriminate. Qed.

(** C4, amended: when the command line is accepted by the argument
    parser, the process exits with status 0 when the whole pipeline
    succeeds, and with status 1 when the token is missing, when the
    metadata file is absent, when there is no file to upload, and when an
    exception is raised in the pipeline; it exits with no other status. *)
Theorem exit_status (py_str : json -> string) (E : env) (a : args) :
  command_line E = Parsed a ->
  (usable_token (ZENODO_TOKEN E) = None -> (script py_str E).2 = 1) /\
  (forall tok, usable_token (ZENODO_TOKEN E) = Some tok ->
     (forall t code, pipeline py_str a tok E [] = (t, Returned code) ->
        (script py_str E).2 = 0) /\
     (path_exists E (Path (metadata a)) = false -> (script py_str E).2 = 1) /\
     (forall md t,
        path_exists E (Path (metadata a)) = true ->
        load_outcome E (Path (metadata a)) = Returned md ->
        obtain_files py_str a (new_uploader tok (sandbox a)) E (before_files a)
        = (t, Returned []) ->
        (script py_str E).2 = 1) /\
     (forall t e, pipeline py_str a tok E [] = (t, Raised (Error e)) ->
        (script py_str E).2 = 1)) /\
  ((script py_str E).2 = 0 \/ (script py_str E).2 = 1).
Proof.
  intros Hcl. split; [|split].
  - intros Htok. rewrite (script_without_token py_str E Htok), Hcl. reflexivity.
  - intros tok Htok. rewrite (script_with_token py_str E a tok Hcl Htok).
    split; [|split; [|split]].
    + intros t code H.
      destruct (pipeline_spec py_str E _ a tok eq_refl []) as (s' & _ & Hpost).
      rewrite H in *. cbn in Hpost. now destruct Hpost as [-> _].
    + intros Hex. unfold pipeline. cbv zeta.
      unfold mbind, M_bind, bind, ask, print, emit, sys_exit, raise. cbn.
      rewrite Hex. reflexivity.
    + intros md t Hex Hload Hfiles.
      unfold pipeline, load_zenodo_metadata, ZenodoUploader. cbv zeta.
      unfold mbind, M_bind, bind, ask, local_call, print, emit, ret. cbn.
      rewrite Hex, Hload. cbn. unfold before_files in Hfiles.
      rewrite Hfiles. reflexivity.
    + intros t e H. rewrite H. reflexivity.
  - destruct (usable_token (ZENODO_TOKEN E)) as [tok|] eqn:Htok.
    + rewrite (script_with_token py_str E a tok Hcl Htok).
      destruct (pipeline_spec py_str E _ a tok eq_refl []) as (s' & _ & Hpost).
      destruct (pipeline py_str a tok E []) as [t [code|[code|e]]]; cbn in *.
      * left. now destruct Hpost.
      * right. destruct Hpost as [(x & [=] & _) | [[= ->] _]]. reflexivity.
      * now right.
    + right. rewrite (script_without_token py_str E Htok), Hcl. reflexivity.
Qed.

Lemma exit_status_witness :
  (script demo_str (demo_env (Parsed (demo_args true)) (Some "tok") 200 201)).2 = 0 /\
  (script demo_str (demo_env (Parsed (demo_args true)) (Some "tok") 200 500)).2 = 1 /\
  (script demo_str (demo_env (Parsed (demo_args true)) None 200 201)).2 = 1 /\
  (script demo_str (local_env false)).2 = 1 /\
  (script demo_str (local_env true)).2 = 1.
Proof.
  destruct (exit_status demo_str (local_env false) skip_args eq_refl)
    as (_ & Habsent & _).
  destruct (Habsent "tok" eq_refl) as (_ & Hmeta & _).
  destruct (exit_status demo_str (local_env true) skip_args eq_refl)
    as (_ & Hempty & _).
  destruct (Hempty "tok" eq_refl) as (_ & _ & Hfiles & _).
  destruct (exit_status demo_str
              (demo_env (Parsed (demo_args true)) (Some "tok") 200 201)
              (demo_args true) eq_refl) as (_ & Hok & _).
  destruct (Hok "tok" eq_refl) as (Hzero & _).
  destruct (exit_status demo_str
              (demo_env (Parsed (demo_args true)) (Some "tok") 200 500)
              (demo_args true) eq_refl) as (_ & Hbad & _).
  destruct (Hbad "tok" eq_refl) as (_ & _ & _ & Hone).
  destruct (exit_status demo_str
              (demo_env (Parsed (demo_args true)) None 200 201)
              (demo_args true) eq_refl) as (Hnone & _).
  split; [|split; [|split; [|split]]].
  - eapply Hzero. vm_compute. reflexivity.
  - eapply Hone. vm_compute. reflexivity.
  - apply Hnone. reflexivity.
  - apply Hmeta. reflexivity.
  - eapply Hfiles; reflexivity.
Defined.

(** *** The record address of a successful run *)

Lemma bind_returned {A B} (m : M A) (f : A -> M B) (E : env)
  (h t : list event) (b : B) :
  (m ≫= f) E h = (t, Returned b) ->
  exists a t1 t2,
    m E h = (t1, Returned a) /\ f a E (h ++ t1) = (t2, Returned b) /\ t = t1 ++ t2.
Proof.
  unfold mbind, M_bind, bind.
  destruct (m E h) as [t1 [a|e]]; [|discriminate].
  destruct (f a E (h ++ t1)) as [t2 r] eqn:Hf.
  intros [= <- ->]. eauto 6.
Qed.

Lemma send_returned (rq : request) (E : env) (h t : list event) (r : response) :
  send rq E h = (t, Returned r) -> t = [Http rq (Returned r)].
Proof.
  unfold send. destruct (http_outcome E h rq); [|discriminate].
  now intros [= <- <-].
Qed.

Lemma response_json_returned (r : response) (E : env) (h t : list event) (j : json) :
  response_json r E h = (t, Returned j) -> json_body r = Some j.
Proof.
  unfold response_json. destruct (json_body r); [|discriminate].
  now intros [= _ <-].
Qed.

Lemma publish_deposition_returned (py_str : json -> string) (self : uploader)
  (id published : json) (E : env) (h t : list event) :
  publish_deposition py_str self id E h = (t, Returned published) ->
  exists rq r,
    rq_step rq = Publish /\ In (Http rq (Returned r)) t /\
    json_body r = Some published.
Proof.
  unfold publish_deposition. intros H.
  apply bind_returned in H as (r & ts & ts' & Hsend & H & ->).
  apply send_returned in Hsend as ->.
  apply bind_returned in H as ([] & t1 & t1' & _ & H & ->).
  apply bind_returned in H as (deposition & t2 & t2' & Hjson & H & ->).
  apply response_json_returned in Hjson.
  apply bind_returned in H as (meta & t3 & t3' & _ & H & ->).
  apply bind_returned in H as (doi & t4 & t4' & _ & H & ->).
  apply bind_returned in H as ([] & t5 & t5' & _ & H & ->).
  cbv [ret] in H. injection H as _ <-.
  eexists _, r. refine (conj _ (conj (or_introl eq_refl) Hjson)). reflexivity.
Qed.

Lemma lift_returned {A} (r : result exception A) (E : env) (h t : list event) (a : A) :
  lift r E h = (t, Returned a) -> r = Returned a /\ t = [].
Proof. destruct r; [|discriminate]. now intros [= <- <-]. Qed.

Lemma local_call_returned {A} (ev : event) outcome (E : env) (h t : list event) (a : A) :
  local_call ev outcome E h = (t, Returned a) -> t = [ev].
Proof. unfold local_call. now intros [= <- _]. Qed.

Ltac skip_bind H :=
  let x := fresh "x" in
  let t1 := fresh "t" in
  let t2 := fresh "t" in
  apply bind_returned in H as (x & t1 & t2 & _ & H & ->).

Lemma report_and_save_returned (py_str : json -> string) (a : args)
  (id published : json) (E : env) (h t : list event) (code : Z) :
  report_and_save py_str a id published E h = (t, Returned code) ->
  exists record_id info,
    subscript published "record_id" = Returned record_id /\
    In (Stdout ("URL: " +:+ record_url py_str record_id)) t /\
    In (Json_dump (Path "zenodo_release.json") info) t /\
    subscript info "url" = Returned (JStr (record_url py_str record_id)).
Proof.
  unfold report_and_save. intros H.
  do 2 skip_bind H.
  apply bind_returned in H as (rid & t3 & t3' & Hrid & H & ->).
  apply lift_returned in Hrid as [Hrid ->].
  do 5 skip_bind H.
  apply bind_returned in H as ([] & tp & tp' & Hprint & H & ->).
  injection Hprint as <-.
  do 2 skip_bind H.
  apply bind_returned in H as ([] & td & td' & Hdump & H & ->).
  apply local_call_returned in Hdump as ->.
  eexists rid, _. split; [exact Hrid|].
  split; [|split].
  - rewrite !in_app_iff. cbn. tauto.
  - rewrite !in_app_iff. cbn. tauto.
  - reflexivity.
Qed.

Lemma pipeline_returned (py_str : json -> string) (a : args) (tok : string)
  (E : env) (t : list event) (code : Z) :
  pipeline py_str a tok E [] = (t, Returned code) ->
  exists self id published h1 h2 t1 t2,
    publish_deposition py_str self id E h1 = (t1, Returned published) /\
    report_and_save py_str a id published E h2 = (t2, Returned code) /\
    (forall ev, In ev t1 \/ In ev t2 -> In ev t).
Proof.
  unfold pipeline. cbv zeta. intros H.
  do 5 skip_bind H.
  apply bind_returned in H as (files & tf & tf' & _ & H & ->).
  destruct files as [|f files].
  { skip_bind H. discriminate H. }
  do 6 skip_bind H.
  apply bind_returned in H as (published & tp & tp' & Hpub & H & ->).
  eexists _, _, _, _, _, _, _. split; [exact Hpub|]. split; [exact H|].
  intros ev Hev. rewrite !in_app_iff. tauto.
Qed.

Lemma run_posts (base : string) (s s' : phase) (t : list event) :
  run (protocol base) s t = Some s' ->
  forall rq outcome,
    In (Http rq outcome) t -> rq_verb rq = POST ->
    startswith base (rq_url rq) = true.
Proof.
  revert s. induction t as [|ev t IH]; intros s; [intros _ ? ? []|].
  cbn [run]. destruct (protocol base s ev) as [s1|] eqn:Hd; [|discriminate].
  intros H rq outcome [-> | Hin] Hpost; [|exact (IH s1 H rq outcome Hin Hpost)].
  cbn in Hd. rewrite Hpost in Hd.
  destruct (startswith base (rq_url rq)); [reflexivity | discriminate].
Qed.

(** C10: in every successful run (exit status 0) the printed record
    address and the "url" field of the summary written to
    zenodo_release.json are "https://zenodo.org/record/" followed by the
    record identifier of the publication's answer, on the production
    host whether or not the sandbox was chosen, while every POST of the
    run goes to the base address chosen by the flag (the sandbox
    address in a sandbox run). *)
Theorem record_url_on_production_host (py_str : json -> string) (E : env)
  (a : args) (t : list event) :
  command_line E = Parsed a ->
  script py_str E = (t, 0) ->
  (exists rq r published record_id info,
     rq_step rq = Publish /\ In (Http rq (Returned r)) t /\
     json_body r = Some published /\
     subscript published "record_id" = Returned record_id /\
     In (Stdout ("URL: https://zenodo.org/record/" +:+ py_str record_id)) t /\
     In (Json_dump (Path "zenodo_release.json") info) t /\
     subscript info "url"
     = Returned (JStr ("https://zenodo.org/record/" +:+ py_str record_id))) /\
  (forall rq outcome,
     In (Http rq outcome) t -> rq_verb rq = POST ->
     startswith (if sandbox a then ZENODO_SANDBOX else ZENODO_PROD) (rq_url rq)
     = true).
Proof.
  intros Hcl Hrun. split.
  - destruct (usable_token (ZENODO_TOKEN E)) as [tok|] eqn:Htok.
    + rewrite (script_with_token py_str E a tok Hcl Htok) in Hrun.
      destruct (pipeline py_str a tok E []) as [t' [code|[code|e]]] eqn:Hp;
        [| |discriminate].
      * injection Hrun as -> ->.
        apply pipeline_returned in Hp
          as (self & id & published & h1 & h2 & t1 & t2 & Hpub & Hsave & Hin).
        apply publish_deposition_returned in Hpub as (rq & r & Hstep & Hcall & Hbody).
        apply report_and_save_returned in Hsave
          as (record_id & info & Hrid & Hurl & Hdump & Hfield).
        exists rq, r, published, record_id, info. unfold record_url in *.
        repeat split; auto.
      * injection Hrun as -> ->.
        destruct (pipeline_spec py_str E _ a tok eq_refl []) as (s' & _ & Hpost).
        rewrite Hp in Hpost. cbn in Hpost.
        destruct Hpost as [(x & [=] & _) | [[=] _]].
    + rewrite (script_without_token py_str E Htok), Hcl in Hrun. discriminate.
  - destruct (script_conforms py_str E) as (s' & Hacc & _).
    rewrite Hrun in Hacc. unfold api_base in Hacc. rewrite Hcl in Hacc.
    exact (run_posts _ _ _ _ Hacc).
Qed.

Lemma record_url_on_production_host_witness :
  let t := (script demo_str
              (demo_env (Parsed (demo_args true)) (Some "tok") 200 201)).1 in
  In (Stdout "URL: https://zenodo.org/record/43") t /\
  startswith "https://sandbox.zenodo.org/api" (rq_url demo_publish) = true.
Proof.
  cbv zeta.
  destruct (record_url_on_production_host demo_str
              (demo_env (Parsed (demo_args true)) (Some "tok") 200 201)
              (demo_args true) _ eq_refl eq_refl) as [Hurl Hposts].
  split.
  - destruct Hurl as (rq & r & published & record_id & info & _ & _ & _ & _ & _ & _ & _).
    vm_compute. tauto.
  - apply (Hposts demo_publish (Returned (Response 202 "" (Some demo_published))));
      [|reflexivity].
    vm_compute. tauto.
Defined.

End UploaderFacts.

(** ** More on the documentation generator *)

Module GeneratorExtra.
Import Pathlib PyStr PyStrFacts Generator Listing GeneratorFacts.

(** *** Patterns *)

Lemma fnmatch_star (pat s : string) :
  fnmatch (String "*" pat) s
  = fnmatch pat s
    || match s with
       | EmptyString => false
       | String _ s' => fnmatch (String "*" pat) s'
       end.
Proof. destruct s; reflexivity. Qed.

Lemma fnmatch_star_spec (pat s : string) :
  fnmatch (String "*" pat) s = true <->
  exists a b, s = a +:+ b /\ fnmatch pat b = true.
Proof.
  induction s as [|c s IH]; rewrite fnmatch_star.
  - rewrite orb_false_r. split.
    + intros H. exists "", "". split; [reflexivity | exact H].
    + intros (a & b & Hs & Hb). destruct a; [|discriminate].
      change ("" +:+ b) with b in Hs. now subst.
  - rewrite orb_true_iff, IH. split.
    + intros [H | (a & b & -> & Hb)].
      * exists "", (String c s). split; [reflexivity | exact H].
      * exists (String c a), b. split; [reflexivity | exact Hb].
    + intros (a & b & Hs & Hb). destruct a as [|d a].
      * left. change ("" +:+ b) with b in Hs. now subst.
      * right. rewrite app_cons_str in Hs. injection Hs as -> ->. eauto.
Qed.

Lemma fnmatch_cons (c : ascii) (pat s : string) :
  Ascii.eqb c "*" = false ->
  fnmatch (String c pat) s = true <->
  exists s', s = String c s' /\ fnmatch pat s' = true.
Proof.
  intros Hc. cbn [fnmatch]. rewrite Hc. destruct s as [|d s].
  - split; [discriminate | intros (s' & [=] & _)].
  - rewrite andb_true_iff, Ascii.eqb_eq. split.
    + intros [-> H]. eauto.
    + intros (s' & [= -> ->] & H). auto.
Qed.

Lemma fnmatch_literal (pat s : string) :
  literal pat = true -> fnmatch pat s = true <-> s = pat.
Proof.
  revert s. induction pat as [|c pat IH]; intros s Hl.
  - destruct s; cbn; split; congruence.
  - cbn [literal] in Hl. apply andb_true_iff in Hl as [Hc Hl].
    apply negb_true_iff in Hc. rewrite (fnmatch_cons _ _ _ Hc). split.
    + intros (s' & -> & H). f_equal. now apply IH.
    + intros ->. exists pat. split; [reflexivity | now apply IH].
Qed.


(** "Fig*.pdf" matches the names that start with "Fig" and go on to end
    in ".pdf". *)
Lemma fnmatch_fig (s : string) :
  fnmatch "Fig*.pdf" s = true <-> exists mid, s = "Fig" +:+ mid +:+ ".pdf".
Proof.
  change "Fig*.pdf" with (String "F" (String "i" (String "g" (String "*" ".pdf")))).
  rewrite fnmatch_cons by reflexivity. split.
  - intros (s1 & -> & H). apply fnmatch_cons in H as (s2 & -> & H); [|reflexivity].
    apply fnmatch_cons in H as (s3 & -> & H); [|reflexivity].
    apply fnmatch_star_spec in H as (a & b & -> & Hb).
    apply fnmatch_literal in Hb as ->; eauto.
  - intros (mid & ->). eexists. split; [reflexivity|].
    apply fnmatch_cons; [reflexivity|]. eexists. split; [reflexivity|].
    apply fnmatch_cons; [reflexivity|]. eexists. split; [reflexivity|].
    apply fnmatch_star_spec. exists mid, ".pdf". split; [reflexivity|].
    now apply fnmatch_literal.
Qed.

(** *** The scan and its order *)

Lemma path_leb_total (p q : path) : path_leb p q = true \/ path_leb q p = true.
Proof.
  revert q. induction p as [|a p IH]; intros q; [now left|].
  destruct q as [|b q]; [now right|].
  cbn [path_leb]. rewrite (String.compare_antisym b a).
  destruct (String.compare a b); cbn; auto.
Qed.

#[local] Instance path_le_total : Total path_le.
Proof. intros p q. apply path_leb_total. Qed.

Lemma rglob_spec (w : world) (root : path) (pattern : string) (p : path) :
  p ∈ rglob w root pattern <-> scanned w root pattern p.
Proof.
  unfold rglob, scanned.
  rewrite list_elem_of_In, filter_In, <- list_elem_of_In.
  rewrite andb_true_iff, list_elem_of_fmap. split.
  - intros [([q e] & -> & Hq) H]. apply elem_of_map_to_list in Hq.
    cbn in *. split; [eauto | exact H].
  - intros ([e He] & H). split; [|tauto].
    exists (p, e). split; [reflexivity | now apply elem_of_map_to_list].
Qed.

Lemma rglob_NoDup (w : world) (root : path) (pattern : string) :
  NoDup (rglob w root pattern).
Proof.
  unfold rglob.
  apply NoDup_ListNoDup, List.NoDup_filter, NoDup_ListNoDup, NoDup_fst_map_to_list.
Qed.

Lemma sorted_spec (w : world) (root : path) (pattern : string) :
  Sorted path_le (sorted (rglob w root pattern)) /\
  NoDup (sorted (rglob w root pattern)) /\
  forall p, p ∈ sorted (rglob w root pattern) <-> scanned w root pattern p.
Proof.
  unfold sorted. split; [apply Sorted_merge_sort; apply _|]. split.
  - rewrite merge_sort_Permutation. apply rglob_NoDup.
  - intros p. rewrite merge_sort_Permutation. apply rglob_spec.
Qed.


(** X2: [get_pdf_figures] returns, in ascending order of paths and
    without repetition, exactly the entries strictly below the root whose
    name starts with "Fig" and then ends in ".pdf". *)
Theorem get_pdf_figures_scan (w : world) (root : path) :
  Sorted path_le (get_pdf_figures w root) /\
  NoDup (get_pdf_figures w root) /\
  (forall p, p ∈ get_pdf_figures w root <->
     is_Some (fs w !! p) /\ below root p = true /\
     exists mid, name p = "Fig" +:+ mid +:+ ".pdf").
Proof.
  unfold get_pdf_figures. cbv zeta.
  destruct (sorted_spec w root "Fig*.pdf") as (Hs & Hn & Hm).
  split; [exact Hs|]. split; [exact Hn|].
  intros p. rewrite Hm. unfold scanned. now rewrite fnmatch_fig.
Qed.

(** *** The two sections *)

Lemma sorted_below (w : world) (root : path) (pattern : string) :
  Forall (fun p => below root p = true) (sorted (rglob w root pattern)).
Proof.
  apply Forall_forall. intros p Hp.
  apply (proj2 (proj2 (sorted_spec w root pattern))) in Hp. apply Hp.
Qed.

Lemma below_relative (root p : path) :
  below root p = true -> exists rel, relative_to p root = Some rel.
Proof. unfold below. destruct (relative_to p root); [eauto | discriminate]. Qed.

Lemma table_line_rel (root p rel : path) :
  relative_to p root = Some rel ->
  table_line root p = "- `" +:+ str_rel rel +:+ "` – " +:+ describe_table p.
Proof. intros H. unfold table_line. now rewrite H. Qed.

Lemma figure_line_rel (root p rel : path) :
  relative_to p root = Some rel ->
  figure_line root p = "- `" +:+ str_rel rel +:+ "`".
Proof. intros H. unfold figure_line. now rewrite H. Qed.

Lemma table_lines_listing (root : path) (files : list path) :
  Forall (fun p => below root p = true) files ->
  table_lines root files
  = Returned (map (table_line root) (List.filter not_metadata files)).
Proof.
  induction 1 as [|p ps Hp _ IH]; cbn [table_lines List.filter]; [reflexivity|].
  unfold not_metadata at 1.
  destruct (String.eqb (name (parent p)) "metadata"); cbn [negb]; [exact IH|].
  destruct (below_relative root p Hp) as [rel Hrel].
  rewrite Hrel, IH. cbn [map]. now rewrite (table_line_rel _ _ _ Hrel).
Qed.

Lemma figure_lines_listing (root : path) (files : list path) :
  Forall (fun p => below root p = true) files ->
  figure_lines root files = Returned (map (figure_line root) files).
Proof.
  induction 1 as [|p ps Hp _ IH]; cbn [figure_lines map]; [reflexivity|].
  destruct (below_relative root p Hp) as [rel Hrel].
  rewrite Hrel, IH. now rewrite (figure_line_rel _ _ _ Hrel).
Qed.

Lemma tables_section_eq (w : world) (root : path) :
  generate_tables_section w root
  = Returned
      match get_tsv_files w root "*.tsv" with
      | [] => no_tables_yet
      | _ :: _ =>
          match List.filter not_metadata (get_tsv_files w root "*.tsv") with
          | [] => no_tables
          | kept => join (String LF "") (map (table_line root) kept)
          end
      end.
Proof.
  unfold generate_tables_section.
  pose proof (sorted_below w root "*.tsv") as Hb. fold (get_tsv_files w root "*.tsv") in Hb.
  destruct (get_tsv_files w root "*.tsv") as [|p ps] eqn:Hfiles; [reflexivity|].
  rewrite (table_lines_listing root _ Hb).
  destruct (List.filter not_metadata (p :: ps)); reflexivity.
Qed.

Lemma figures_section_eq (w : world) (root : path) :
  generate_figures_section w root
  = Returned
      match get_pdf_figures w root with
      | [] => no_figures_yet
      | figures => join (String LF "") (map (figure_line root) figures)
      end.
Proof.
  unfold generate_figures_section. cbv zeta.
  pose proof (sorted_below w root "Fig*.pdf") as Hb. fold (get_pdf_figures w root) in Hb.
  destruct (get_pdf_figures w root) as [|p ps] eqn:Hfiles; [reflexivity|].
  rewrite (figure_lines_listing root _ Hb). reflexivity.
Qed.

(** A list of lines that starts with a dash joins to a text that starts
    with a dash. *)
Lemma join_dash (sep rest : string) (lines : list string) :
  exists text, join sep (String "-" rest :: lines) = String "-" text.
Proof. destruct lines; cbn; eauto. Qed.

Lemma table_line_dash (root p : path) :
  below root p = true -> exists rest, table_line root p = String "-" rest.
Proof.
  intros Hp. destruct (below_relative root p Hp) as [rel Hrel].
  rewrite (table_line_rel _ _ _ Hrel). eauto.
Qed.

Lemma figure_line_dash (root p : path) :
  below root p = true -> exists rest, figure_line root p = String "-" rest.
Proof.
  intros Hp. destruct (below_relative root p Hp) as [rel Hrel].
  rewrite (figure_line_rel _ _ _ Hrel). eauto.
Qed.

(** X3: [generate_tables_section] never raises. It returns the first
    placeholder when the scan finds no table, the second when every table
    found lies directly in a directory called "metadata", and otherwise
    one line per remaining table, in the order of the scan, joined by
    line feeds; the text returned is never empty. *)
Theorem tables_section_listing (w : world) (root : path) :
  generate_tables_section w root
  = Returned
      match get_tsv_files w root "*.tsv" with
      | [] => no_tables_yet
      | _ :: _ =>
          match List.filter not_metadata (get_tsv_files w root "*.tsv") with
          | [] => no_tables
          | kept => join (String LF "") (map (table_line root) kept)
          end
      end
  /\ generate_tables_section w root <> Returned "".
Proof.
  split; [apply tables_section_eq|].
  rewrite tables_section_eq.
  pose proof (sorted_below w root "*.tsv") as Hb. fold (get_tsv_files w root "*.tsv") in Hb.
  destruct (get_tsv_files w root "*.tsv") as [|p ps]; [discriminate|].
  assert (Hk : Forall (fun q => below root q = true)
                 (List.filter not_metadata (p :: ps))).
  { apply Forall_forall. intros q Hq. apply list_elem_of_In, filter_In in Hq as [Hq _].
    apply list_elem_of_In in Hq. exact (proj1 (Forall_forall _ _) Hb q Hq). }
  destruct (List.filter not_metadata (p :: ps)) as [|q qs]; [discriminate|].
  cbn [map]. apply Forall_cons_1 in Hk as [Hq _].
  destruct (table_line_dash root q Hq) as [rest ->].
  destruct (join_dash (String LF "") rest (map (table_line root) qs)) as [text ->].
  discriminate.
Qed.

(** X4: [generate_figures_section] never raises. It returns its first
    placeholder when the scan finds no figure and otherwise one line per
    figure, in the order of the scan, joined by line feeds; so the text is
    never empty, and the second placeholder ("No figure PDFs found") is
    never returned. *)
Theorem figures_section_listing (w : world) (root : path) :
  generate_figures_section w root
  = Returned
      match get_pdf_figures w root with
      | [] => no_figures_yet
      | figures => join (String LF "") (map (figure_line root) figures)
      end
  /\ generate_figures_section w root <> Returned ""
  /\ generate_figures_section w root <> Returned no_figures.
Proof.
  split; [apply figures_section_eq|].
  rewrite figures_section_eq.
  pose proof (sorted_below w root "Fig*.pdf") as Hb. fold (get_pdf_figures w root) in Hb.
  destruct (get_pdf_figures w root) as [|p ps]; [split; discriminate|].
  cbn [map]. apply Forall_cons_1 in Hb as [Hp _].
  destruct (figure_line_dash root p Hp) as [rest ->].
  destruct (join_dash (String LF "") rest (map (figure_line root) ps)) as [text ->].
  split; discriminate.
Qed.

(** *** [update_readme] and [main] on the rest of the tree *)







End GeneratorExtra.

(** ** More on the publisher *)

Module UploaderExtra.
Import Pathlib PyStr PyStrFacts Uploader Protocol Audit UploaderFacts.

(** *** Consequences of the protocol *)

Section Order.

Variable base : string.

Lemma report_accepted (s s' : phase) (e : exception) :
  protocol base s (Error_report e) = Some s' -> s' = Done /\ s <> Done.
Proof.
  cbn. destruct s; try (intros [= <-]; split; [reflexivity | discriminate]).
  - destruct (decide _); [|discriminate].
    intros [= <-]. split; [reflexivity | discriminate].
  - discriminate.
Qed.

Lemma other_accepted (s s' : phase) (ev : event) :
  is_http ev = false -> is_report ev = false ->
  protocol base s ev = Some s' -> s' = s /\ live s.
Proof.
  destruct ev; try discriminate; intros _ _; cbn;
    destruct s; try discriminate; intros [= <-]; split; (reflexivity || exact I).
Qed.

(** As long as the run has not reported, no report is in the trace. *)
Lemma run_not_done (s s1 : phase) (t : list event) :
  run (protocol base) s t = Some s1 -> s1 <> Done ->
  Forall (fun ev => is_report ev = false) t.
Proof.
  revert s. induction t as [|ev t IH]; intros s; [constructor|].
  cbn [run]. destruct (protocol base s ev) as [s2|] eqn:Hd; [|discriminate].
  intros H Hs1. constructor; [|exact (IH s2 H Hs1)].
  destruct ev; try reflexivity.
  apply report_accepted in Hd as [-> _].
  apply run_done in H as [_ ->]. now destruct Hs1.
Qed.

(** A run that stands in [Uploading] started there or has created its
    deposition with success. *)
Lemma run_uploading (s : phase) (t : list event) :
  run (protocol base) s t = Some Uploading ->
  s = Uploading \/
  exists rq r, In (Http rq (Returned r)) t /\
               rq_step rq = Create_deposition /\ ok r = true.
Proof.
  revert s. induction t as [|ev t IH]; intros s; cbn [run].
  - intros [= ->]. now left.
  - destruct (protocol base s ev) as [s2|] eqn:Hd; [|discriminate].
    intros H. destruct (IH s2 H) as [-> | (rq & r & Hin & Hst & Hok)].
    2:{ right. exists rq, r. split; [now right | auto]. }
    destruct ev as [l|e|rq outcome|q|q|q d|q|q v];
      try (apply other_accepted in Hd as [<- _]; [now left | reflexivity..]).
    + apply report_accepted in Hd as [[=] _].
    + apply call_accepted in Hd as (next & Hs2 & Hstep).
      unfold after_call, failure in Hs2.
      destruct outcome as [r|e]; [|discriminate].
      destruct (ok r) eqn:Hok; [|discriminate]. subst next.
      destruct (rq_step rq) eqn:Hst; destruct Hstep as [Hs [=]].
      * right. exists rq, r. split; [now left | auto].
      * now left.
Qed.

Lemma run_late (s s' : phase) (t : list event) :
  run (protocol base) s t = Some s' -> late s ->
  Forall (fun ev => calls Create_deposition ev = false) t.
Proof.
  revert s. induction t as [|ev t IH]; intros s; [constructor|].
  cbn [run]. destruct (protocol base s ev) as [s2|] eqn:Hd; [|discriminate].
  intros H Hs.
  destruct ev as [l|e|rq outcome|q|q|q d|q|q v];
    try (apply other_accepted in Hd as [-> _]; [|reflexivity..];
         constructor; [reflexivity | exact (IH s H Hs)]).
  - apply report_accepted in Hd as [-> _].
    constructor; [reflexivity | exact (IH Done H I)].
  - apply call_accepted in Hd as (next & -> & Hstep).
    destruct (rq_step rq) eqn:Hst; destruct Hstep as [Hs0 ->];
      try (subst s; destruct Hs);
      try (destruct Hs0; subst s; destruct Hs).
    + constructor; [cbn; now rewrite Hst|].
      apply (IH _ H). unfold after_call. now destruct (failure outcome).
    + constructor; [cbn; now rewrite Hst|].
      apply (IH _ H). unfold after_call. now destruct (failure outcome).
Qed.

End Order.

(** X7: the error report of the handler is the last event of a run and
    occurs at most once, and a run that reports exits with status 1. *)
Theorem error_report_is_last (py_str : json -> string) (E : env)
  (pre post : list event) (e : exception) :
  (script py_str E).1 = pre ++ Error_report e :: post ->
  post = [] /\ (script py_str E).2 = 1 /\
  Forall (fun ev => is_report ev = false) pre.
Proof.
  intros Ht. destruct (script_conforms py_str E) as (s' & Hrun & Hend).
  rewrite Ht, run_app in Hrun.
  destruct (run (protocol (api_base E)) Fetching pre) as [s1|] eqn:Hpre;
    cbn [mbind option_bind run] in Hrun; [|discriminate].
  destruct (protocol (api_base E) s1 (Error_report e)) as [s2|] eqn:Hd;
    [|discriminate].
  apply report_accepted in Hd as [-> Hs1].
  apply run_done in Hrun as [-> ->].
  split; [reflexivity|]. split.
  - destruct Hend as [[_ [=]] | [[-> _] | [[=] | [=]]]]. reflexivity.
  - exact (run_not_done _ _ _ _ Hpre Hs1).
Qed.

Lemma error_report_is_last_witness :
  let E := demo_env (Parsed (demo_args true)) (Some "tok") 200 500 in
  drop 21 (script demo_str E).1 = [] /\ (script demo_str E).2 = 1.
Proof.
  cbv zeta.
  destruct (error_report_is_last demo_str
              (demo_env (Parsed (demo_args true)) (Some "tok") 200 500)
              (take 20 (script demo_str
                          (demo_env (Parsed (demo_args true)) (Some "tok") 200 500)).1)
              (drop 21 (script demo_str
                          (demo_env (Parsed (demo_args true)) (Some "tok") 200 500)).1)
              (HTTPError 500) eq_refl) as (Hpost & Hcode & _).
  split; [exact Hpost | exact Hcode].
Defined.

(** X8: a file is uploaded and the deposition is published only after a
    deposition was created with success earlier in the run, and a run
    asks for the creation of a deposition at most once. *)
Theorem deposition_created_first (py_str : json -> string) (E : env)
  (pre post : list event) (rq : request) outcome :
  (script py_str E).1 = pre ++ Http rq outcome :: post ->
  (rq_step rq = File_upload \/ rq_step rq = Publish ->
   exists rq' r, In (Http rq' (Returned r)) pre /\
                 rq_step rq' = Create_deposition /\ ok r = true) /\
  (rq_step rq = Create_deposition ->
   Forall (fun ev => calls Create_deposition ev = false) (pre ++ post)).
Proof.
  intros Ht.
  destruct (script_around_call py_str E pre post rq outcome Ht)
    as (s1 & s2 & s' & Hpre & Hd & Hpost & _).
  apply call_accepted in Hd as (next & -> & Hstep). split.
  - intros Hst.
    assert (s1 = Uploading) as ->.
    { destruct Hst as [Hst | Hst]; rewrite Hst in Hstep; apply Hstep. }
    destruct (run_uploading _ _ _ Hpre) as [[=] | H]. exact H.
  - intros Hst. rewrite Hst in Hstep. destruct Hstep as [Hs1 ->].
    apply Forall_app. split.
    + exact (proj2 (run_early _ _ _ _ Hpre Hs1)).
    + apply (run_late _ _ _ _ Hpost). unfold after_call.
      now destruct (failure outcome).
Qed.

Lemma deposition_created_first_witness :
  let t := (script demo_str
              (demo_env (Parsed (demo_args true)) (Some "tok") 200 201)).1 in
  exists rq' r, In (Http rq' (Returned r)) (take 25 t) /\
                rq_step rq' = Create_deposition /\ ok r = true.
Proof.
  cbv zeta.
  apply (proj1 (deposition_created_first demo_str
                  (demo_env (Parsed (demo_args true)) (Some "tok") 200 201)
                  (take 25 (script demo_str
                              (demo_env (Parsed (demo_args true)) (Some "tok") 200 201)).1)
                  (drop 26 (script demo_str
                              (demo_env (Parsed (demo_args true)) (Some "tok") 200 201)).1)
                  demo_publish (Returned (Response 202 "" (Some demo_published)))
                  eq_refl)).
  now right.
Defined.

(** *** What each procedure emits *)

Section Emits.

Context (P : event -> Prop) (E : env).

Lemma emits_ret {A} (x : A) (Q : A -> Prop) : Q x -> emits P E (ret x) Q.
Proof. intros H h. split; [constructor | exact H]. Qed.

Lemma emits_raise {A} (e : raised) (Q : A -> Prop) : emits P E (raise e) Q.
Proof. intros h. split; [constructor | exact I]. Qed.

Lemma emits_bind {A B} (m : M A) (f : A -> M B) (Q' : A -> Prop) (Q : B -> Prop) :
  emits P E m Q' ->
  (forall x, Q' x -> emits P E (f x) Q) ->
  emits P E (m ≫= f) Q.
Proof.
  intros Hm Hf h. destruct (Hm h) as [Ht Hq].
  unfold mbind, M_bind, bind.
  destruct (m E h) as [t1 [x|e]]; cbn in *; [|auto].
  destruct (Hf x Hq (h ++ t1)) as [Ht2 Hq2].
  destruct (f x E (h ++ t1)) as [t2 r]; cbn in *.
  split; [now apply Forall_app | exact Hq2].
Qed.

Lemma emits_print_then {B} (line : string) (k : unit -> M B) (Q : B -> Prop) :
  P (Stdout line) -> emits P E (k tt) Q -> emits P E (print line ≫= k) Q.
Proof.
  intros Hp Hk. apply emits_bind with (Q' := fun _ => True).
  - intros h. split; [now repeat constructor | exact I].
  - intros [] _. exact Hk.
Qed.

Lemma emits_lift_then {A B} (r : result exception A) (k : A -> M B) (Q : B -> Prop) :
  (forall x, r = Returned x -> emits P E (k x) Q) ->
  emits P E (lift r ≫= k) Q.
Proof.
  intros Hk. apply emits_bind with (Q' := fun x => r = Returned x); [|exact Hk].
  intros h. destruct r; cbn; split; auto.
Qed.

Lemma emits_ask_then {A B} (f : env -> A) (k : A -> M B) (Q : B -> Prop) :
  emits P E (k (f E)) Q -> emits P E (ask f ≫= k) Q.
Proof.
  intros Hk. apply emits_bind with (Q' := fun x => x = f E).
  - intros h. split; [constructor | reflexivity].
  - intros x ->. exact Hk.
Qed.

Lemma emits_local_then {A B} (ev : event) outcome (k : A -> M B) (Q : B -> Prop) :
  P ev ->
  (forall x h, outcome E h = Returned x -> emits P E (k x) Q) ->
  emits P E (local_call ev outcome ≫= k) Q.
Proof.
  intros Hp Hk.
  apply emits_bind with (Q' := fun x => exists h, outcome E h = Returned x).
  - intros h. cbn. split; [now repeat constructor|].
    destruct (outcome E h) eqn:Ho; eauto.
  - intros x [h Hx]. exact (Hk x h Hx).
Qed.

Lemma emits_send_then {B} (rq : request) (k : response -> M B) (Q : B -> Prop) :
  (forall outcome, P (Http rq outcome)) ->
  (forall r, emits P E (k r) Q) ->
  emits P E (send rq ≫= k) Q.
Proof.
  intros Hp Hk. apply emits_bind with (Q' := fun _ => True); [|auto].
  intros h. cbn. split; [now repeat constructor|].
  now destruct (http_outcome E h rq).
Qed.

Lemma emits_status_then {B} (r : response) (k : unit -> M B) (Q : B -> Prop) :
  (ok r = true -> emits P E (k tt) Q) ->
  emits P E (raise_for_status r ≫= k) Q.
Proof.
  intros Hk. apply emits_bind with (Q' := fun _ => ok r = true).
  - intros h. unfold raise_for_status. destruct (ok r); cbn; split; auto.
  - intros [] H. exact (Hk H).
Qed.

Lemma emits_json_then {B} (r : response) (k : json -> M B) (Q : B -> Prop) :
  (forall j, json_body r = Some j -> emits P E (k j) Q) ->
  emits P E (response_json r ≫= k) Q.
Proof.
  intros Hk. apply emits_bind with (Q' := fun j => json_body r = Some j); [|exact Hk].
  intros h. unfold response_json. destruct (json_body r); cbn; split; auto.
Qed.

End Emits.

Lemma emits_weaken {A} (P P' : event -> Prop) (E : env) (m : M A) (Q Q' : A -> Prop) :
  emits P' E m Q' ->
  (forall ev, P' ev -> P ev) -> (forall x, Q' x -> Q x) ->
  emits P E m Q.
Proof.
  intros Hm HP HQ h. destruct (Hm h) as [Ht Hq]. split.
  - eapply Forall_impl; [exact Ht | exact HP].
  - destruct (m E h).2; auto.
Qed.

Ltac estep :=
  lazymatch goal with
  | |- emits _ _ (print _ ≫= _) _ => apply emits_print_then; [exact I|]
  | |- emits _ _ (lift _ ≫= _) _ => apply emits_lift_then; intros ? ?
  | |- emits _ _ (ask _ ≫= _) _ => apply emits_ask_then
  | |- emits _ _ (response_json _ ≫= _) _ => apply emits_json_then; intros ? ?
  | |- emits _ _ (raise_for_status _ ≫= _) _ => apply emits_status_then; intros ?
  | |- emits _ _ (ret _) _ => apply emits_ret
  | |- emits _ _ (raise _) _ => apply emits_raise
  | |- emits _ _ (sys_exit _) _ => apply emits_raise
  end.

Section Stages.

Variable py_str : json -> string.
Variable E : env.
Variable a : args.
Variable self : uploader.

Local Abbreviation staged := (stage_event py_str E a self).

Lemma ZenodoUploader_emits (k : stage) (tok : string) (sb : bool) :
  emits (staged k) E (ZenodoUploader tok sb) (fun u => u = new_uploader tok sb).
Proof. unfold ZenodoUploader. repeat estep. reflexivity. Qed.

Lemma load_zenodo_metadata_emits :
  emits (staged Loading) E (load_zenodo_metadata (metadata a))
    (fun md => load_outcome E (Path (metadata a)) = Returned md).
Proof.
  intros h. unfold load_zenodo_metadata, local_call. cbn. split.
  - repeat constructor.
  - now destruct (load_outcome E (Path (metadata a))).
Qed.

Lemma create_deposition_emits (md : json) :
  load_outcome E (Path (metadata a)) = Returned md ->
  emits (staged Creation) E (create_deposition py_str self md) (fun _ => True).
Proof.
  intros Hmd. unfold create_deposition.
  apply emits_send_then; [|intros r; repeat estep; exact I].
  intros outcome. cbn. repeat split; eauto.
Qed.

Lemma upload_file_emits (id : json) (file_path : pure_path) :
  emits (staged Upload) E (upload_file py_str self id file_path) (fun _ => True).
Proof.
  unfold upload_file.
  apply emits_bind with (Q' := fun _ => True).
  - apply emits_local_then; [reflexivity|]. intros f h _.
    intros h'. cbn. split; [|now destruct (http_outcome E h' _)].
    repeat constructor; cbn; eauto.
  - intros r _. repeat estep. exact I.
Qed.

Lemma upload_files_emits (id : json) (files : list pure_path) :
  emits (staged Upload) E (upload_files py_str self id files) (fun _ => True).
Proof.
  induction files as [|f files IH]; cbn [upload_files].
  - now apply emits_ret.
  - eapply emits_bind; [apply upload_file_emits | intros _ _; exact IH].
Qed.

Lemma publish_deposition_emits (id : json) :
  emits (staged Publication) E (publish_deposition py_str self id) (fun _ => True).
Proof.
  unfold publish_deposition.
  apply emits_send_then; [|intros r; repeat estep; exact I].
  intros outcome. cbn. repeat split; eauto.
Qed.

Lemma download_asset_emits (asset : json) :
  emits (staged Fetch) E (download_asset py_str (Path "releases") asset)
    (fun _ => True).
Proof.
  unfold download_asset.
  apply emits_lift_then; intros download_url _.
  apply emits_lift_then; intros name _.
  apply emits_bind with (Q' := fun _ => True).
  { destruct name; (apply emits_raise || now apply emits_ret). }
  intros file_path _. estep.
  apply emits_bind with (Q' := fun _ => True).
  { destruct download_url as [| | | |url| |]; try apply emits_raise.
    intros h. cbn. split; [|now destruct (http_outcome E h _)].
    repeat constructor. }
  intros r _. estep.
  apply emits_local_then; [reflexivity|]. intros [] h _. repeat estep. exact I.
Qed.

Lemma download_assets_emits (assets : list json) (files : list pure_path) :
  emits (staged Fetch) E (download_assets py_str (Path "releases") assets files)
    (fun _ => True).
Proof.
  revert files. induction assets as [|asset assets IH]; intros files;
    cbn [download_assets].
  - now apply emits_ret.
  - eapply emits_bind; [apply download_asset_emits | intros f _; apply IH].
Qed.

Lemma download_release_emits :
  emits (staged Fetch) E
    (download_release py_str self (repo_owner a) (repo_name a) (tag a) "releases")
    (fun _ => True).
Proof.
  unfold download_release. cbv zeta.
  apply emits_local_then; [now split|]. intros [] h _.
  apply emits_send_then; [intros outcome; cbn; repeat split|].
  intros r. repeat estep. apply download_assets_emits.
Qed.

Lemma obtain_files_emits :
  emits (fun ev => staged Fetch ev /\ skip_download a = false) E
    (obtain_files py_str a self) (fun _ => True).
Proof.
  unfold obtain_files. destruct (skip_download a) eqn:Hskip; cbn [negb].
  - apply emits_ask_then. destruct (path_exists E (Path "releases")).
    + intros h. split; [constructor | exact I].
    + now apply emits_ret.
  - apply emits_print_then; [now split|].
    eapply emits_weaken; [apply download_release_emits | now split | auto].
Qed.

Lemma report_and_save_emits (id published : json) :
  emits (staged Summary) E (report_and_save py_str a id published) (fun _ => True).
Proof.
  unfold report_and_save. repeat estep.
  apply emits_local_then; [now split|]. intros [] h _. repeat estep. exact I.
Qed.

End Stages.

Lemma stage_run_event (py_str : json -> string) (E : env) (a : args)
  (self : uploader) (k : stage) (ev : event) :
  (k = Fetch -> skip_download a = false) ->
  stage_event py_str E a self k ev -> run_event py_str E a self ev.
Proof. intros Hk Hev. right. eauto. Qed.

Lemma pipeline_emits (py_str : json -> string) (E : env) (a : args) (tok : string) :
  emits (run_event py_str E a (new_uploader tok (sandbox a))) E
    (pipeline py_str a tok) (fun _ => True).
Proof.
  set (self := new_uploader tok (sandbox a)).
  assert (Hout : forall line, run_event py_str E a self (Stdout line)).
  { intros line. right. exists Loading. split; [exact I | discriminate]. }
  unfold pipeline. cbv zeta. apply emits_ask_then.
  apply emits_bind with (Q' := fun _ => True).
  { destruct (path_exists E (Path (metadata a))); [now apply emits_ret|].
    apply emits_print_then; [apply Hout | apply emits_raise]. }
  intros _ _.
  eapply emits_bind.
  { eapply emits_weaken; [apply (load_zenodo_metadata_emits py_str E a self) | |].
    - intros ev. apply stage_run_event. discriminate.
    - intros md Hmd. exact Hmd. }
  intros md Hmd. apply emits_print_then; [apply Hout|].
  eapply emits_bind.
  { eapply emits_weaken;
      [apply (ZenodoUploader_emits py_str E a self Loading) | |].
    - intros ev. apply stage_run_event. discriminate.
    - intros u Hu. exact Hu. }
  intros u ->. fold self.
  eapply emits_bind with (Q' := fun _ => True).
  { eapply emits_weaken; [apply (obtain_files_emits py_str E a self) | | auto].
    intros ev [Hev Hskip].
    apply (stage_run_event _ _ _ _ Fetch); [intros _; exact Hskip | exact Hev]. }
  intros files _. destruct files as [|f files].
  { apply emits_print_then; [apply Hout | apply emits_raise]. }
  apply emits_print_then; [apply Hout|].
  eapply emits_bind with (Q' := fun _ => True).
  { eapply emits_weaken;
      [apply (create_deposition_emits py_str E a self md Hmd) | | auto].
    intros ev. apply stage_run_event. discriminate. }
  intros deposition _. apply emits_lift_then; intros id _.
  apply emits_print_then; [apply Hout|].
  eapply emits_bind with (Q' := fun _ => True).
  { eapply emits_weaken;
      [apply (upload_files_emits py_str E a self id) | | auto].
    intros ev. apply stage_run_event. discriminate. }
  intros _ _. apply emits_print_then; [apply Hout|].
  eapply emits_bind with (Q' := fun _ => True).
  { eapply emits_weaken;
      [apply (publish_deposition_emits py_str E a self id) | | auto].
    intros ev. apply stage_run_event. discriminate. }
  intros published _.
  eapply emits_weaken;
    [apply (report_and_save_emits py_str E a self id published) | | auto].
  intros ev. apply stage_run_event. discriminate.
Qed.

(** Every event of a run with an accepted command line and a token is
    one of [run_event]. *)
Lemma script_events (py_str : json -> string) (E : env) (a : args) (tok : string) :
  command_line E = Parsed a ->
  usable_token (ZENODO_TOKEN E) = Some tok ->
  Forall (run_event py_str E a (new_uploader tok (sandbox a))) (script py_str E).1.
Proof.
  intros Hcl Htok. rewrite (script_with_token py_str E a tok Hcl Htok).
  destruct (pipeline_emits py_str E a tok []) as [Ht _].
  destruct (pipeline py_str a tok E []) as [t [code|[code|e]]]; cbn in *; auto.
  apply Forall_app. split; [exact Ht|]. repeat constructor.
Qed.

Lemma script_request (py_str : json -> string) (E : env) (a : args) (tok : string)
  (rq : request) outcome :
  command_line E = Parsed a ->
  usable_token (ZENODO_TOKEN E) = Some tok ->
  In (Http rq outcome) (script py_str E).1 ->
  request_shape py_str E a (new_uploader tok (sandbox a)) rq /\
  (stage_of (rq_step rq) = Fetch -> skip_download a = false).
Proof.
  intros Hcl Htok Hin.
  pose proof (script_events py_str E a tok Hcl Htok) as Hall.
  apply (proj1 (List.Forall_forall _ _) Hall) in Hin as [[=] | (k & [Hk Hshape] & Hskip)].
  split; [exact Hshape|]. intros Hf. apply Hskip. congruence.
Qed.

(** X9: in a run with an accepted command line and a token, the GET
    calls (release lookup and asset downloads, to the code host) carry no
    header and no body, so the token is never sent with them; every
    POST call (creation, uploads, publication) carries the bearer header
    with the token and nothing else; and every call has a timeout, 30
    seconds for lookup, creation and publication, 60 for downloads and
    uploads. *)
Theorem token_only_in_posts (py_str : json -> string) (E : env) (a : args)
  (tok : string) (rq : request) outcome :
  command_line E = Parsed a ->
  usable_token (ZENODO_TOKEN E) = Some tok ->
  In (Http rq outcome) (script py_str E).1 ->
  match rq_step rq with
  | Release_lookup =>
      rq_verb rq = GET /\ rq_headers rq = [] /\ rq_json rq = None /\
      rq_files rq = None /\ rq_timeout rq = 30
  | Asset_download =>
      rq_verb rq = GET /\ rq_headers rq = [] /\ rq_json rq = None /\
      rq_files rq = None /\ rq_timeout rq = 60
  | Create_deposition | Publish =>
      rq_verb rq = POST /\
      rq_headers rq = [("Authorization", "Bearer " +:+ tok)] /\
      rq_timeout rq = 30
  | File_upload =>
      rq_verb rq = POST /\
      rq_headers rq = [("Authorization", "Bearer " +:+ tok)] /\
      rq_timeout rq = 60
  end.
Proof.
  intros Hcl Htok Hin.
  destruct (script_request py_str E a tok rq outcome Hcl Htok Hin) as [Hshape _].
  unfold request_shape in Hshape. destruct (rq_step rq); cbn in Hshape; tauto.
Qed.

Lemma token_only_in_posts_witness :
  rq_verb demo_download = GET /\ rq_headers demo_download = [] /\
  rq_json demo_download = None /\ rq_files demo_download = None /\
  rq_timeout demo_download = 60.
Proof.
  apply (token_only_in_posts demo_str
           (demo_env (Parsed (demo_args true)) (Some "tok") 404 201)
           (demo_args true) "tok" demo_download
           (Returned (Response 404 "PK" None)) eq_refl eq_refl).
  vm_compute. tauto.
Defined.

(** X10: with [--skip-download] a run makes no GET call, creates no
    directory and writes no downloaded file: the code host is not
    contacted at all. *)
Theorem skip_download_stays_local (py_str : json -> string) (E : env) (a : args) :
  command_line E = Parsed a ->
  skip_download a = true ->
  Forall (fun ev =>
            match ev with
            | Http rq _ => rq_verb rq = POST
            | Mkdir _ | Write_bytes _ _ => False
            | _ => True
            end) (script py_str E).1.
Proof.
  intros Hcl Hskip.
  destruct (usable_token (ZENODO_TOKEN E)) as [tok|] eqn:Htok.
  - eapply Forall_impl; [exact (script_events py_str E a tok Hcl Htok)|].
    intros ev [Hrep | (k & Hev & Hk)].
    + destruct ev; try discriminate. exact I.
    + destruct ev as [l|e|rq outcome|q|q|q d|q|q v]; cbn in Hev; try exact I.
      * destruct Hev as [Hst Hshape]. unfold request_shape in Hshape.
        destruct (rq_step rq); cbn in Hst; subst k;
          try (rewrite Hk in Hskip by reflexivity; discriminate); tauto.
      * destruct Hev as [-> _]. rewrite Hk in Hskip by reflexivity. discriminate.
      * rewrite Hk in Hskip by exact Hev. discriminate.
  - rewrite (script_without_token py_str E Htok), Hcl. repeat constructor.
Qed.

Lemma skip_download_stays_local_witness :
  Forall (fun ev =>
            match ev with
            | Http rq _ => rq_verb rq = POST
            | Mkdir _ | Write_bytes _ _ => False
            | _ => True
            end) (script demo_str (local_env true)).1.
Proof.
  exact (skip_download_stays_local demo_str (local_env true) skip_args eq_refl eq_refl).
Defined.

(** X11: the creation call is a POST to "/deposit/depositions" under
    the base address chosen by the sandbox flag, and its JSON body is
    the object with the single key "metadata" holding exactly the
    document loaded from the metadata file of the command line. *)
Theorem creation_sends_loaded_metadata (py_str : json -> string) (E : env)
  (a : args) (tok : string) (rq : request) outcome :
  command_line E = Parsed a ->
  usable_token (ZENODO_TOKEN E) = Some tok ->
  In (Http rq outcome) (script py_str E).1 ->
  rq_step rq = Create_deposition ->
  rq_url rq = (if sandbox a then ZENODO_SANDBOX else ZENODO_PROD)
              +:+ "/deposit/depositions" /\
  exists md, load_outcome E (Path (metadata a)) = Returned md /\
             rq_json rq = Some (JObj [("metadata", md)]).
Proof.
  intros Hcl Htok Hin Hst.
  destruct (script_request py_str E a tok rq outcome Hcl Htok Hin) as [Hshape _].
  unfold request_shape in Hshape. rewrite Hst in Hshape. cbn in Hshape. tauto.
Qed.

Lemma creation_sends_loaded_metadata_witness :
  rq_url demo_creation = "https://sandbox.zenodo.org/api/deposit/depositions" /\
  rq_json demo_creation
  = Some (JObj [("metadata", JObj [("title", JStr "Immune state geometry")])]).
Proof.
  destruct (creation_sends_loaded_metadata demo_str
              (demo_env (Parsed (demo_args true)) (Some "tok") 200 201)
              (demo_args true) "tok" demo_creation
              (Returned (Response 201 "" (Some (JObj [("id", JInt 42)]))))
              eq_refl eq_refl)
    as (Hurl & md & Hmd & Hbody).
  - vm_compute. tauto.
  - reflexivity.
  - split; [exact Hurl|]. injection Hmd as <-. exact Hbody.
Defined.



(** *** The summary file comes after the publication *)















(** *** What the loops return *)

Lemma status_returned (r : response) (E : env) (h t : list event) (u : unit) :
  raise_for_status r E h = (t, Returned u) -> ok r = true /\ t = [].
Proof.
  unfold raise_for_status. destruct (ok r); [|discriminate].
  now intros [= <- _].
Qed.

Lemma json_returned_nil (r : response) (E : env) (h t : list event) (j : json) :
  response_json r E h = (t, Returned j) -> t = [].
Proof.
  unfold response_json. destruct (json_body r); [|discriminate].
  now intros [= <- _].
Qed.

Lemma print_returned (line : string) (E : env) (h t : list event) (u : unit) :
  print line E h = (t, Returned u) -> t = [Stdout line].
Proof. now intros [= <- _]. Qed.

Lemma ret_returned {A} (x y : A) (E : env) (h t : list event) :
  ret x E h = (t, Returned y) -> t = [] /\ y = x.
Proof. now intros [= <- <-]. Qed.

Lemma uploads_app (t1 t2 : list event) : uploads (t1 ++ t2) = uploads t1 ++ uploads t2.
Proof.
  induction t1 as [|ev t1 IH]; [reflexivity|].
  destruct ev as [l|e|rq outcome|q|q|q d|q|q v]; cbn [app uploads]; try exact IH.
  destruct (rq_step rq), (rq_files rq) as [[name data]|]; cbn; now rewrite ?IH.
Qed.

Lemma upload_file_returned (py_str : json -> string) (self : uploader) (id : json)
  (file_path : pure_path) (E : env) (h t : list event) (info : json) :
  upload_file py_str self id file_path E h = (t, Returned info) ->
  uploads t = [(bucket_url py_str self id, pure_name file_path)].
Proof.
  unfold upload_file. cbv zeta. intros H.
  apply bind_returned in H as (r & t1 & t1' & Hreq & H & ->).
  apply bind_returned in Hreq as (data & to & to' & Hopen & Hsend & ->).
  apply local_call_returned in Hopen as ->.
  apply send_returned in Hsend as ->.
  apply bind_returned in H as ([] & t2 & t2' & Hst & H & ->).
  apply status_returned in Hst as [_ ->].
  apply bind_returned in H as (j & t3 & t3' & Hj & H & ->).
  apply json_returned_nil in Hj as ->.
  apply bind_returned in H as ([] & t4 & t4' & Hp & H & ->).
  apply print_returned in Hp as ->.
  apply ret_returned in H as [-> _].
  reflexivity.
Qed.

(** X14: when [upload_files] returns, it has made exactly one upload
    call per file, in the order of the list, each to the files address
    of the deposition and under the file's own name. *)
Theorem upload_files_in_order (py_str : json -> string) (self : uploader)
  (id : json) (files : list pure_path) (E : env) (h t : list event) (u : unit) :
  upload_files py_str self id files E h = (t, Returned u) ->
  uploads t = map (fun f => (bucket_url py_str self id, pure_name f)) files.
Proof.
  revert h t. induction files as [|f files IH]; intros h t; cbn [upload_files map].
  - intros H. now apply ret_returned in H as [-> _].
  - intros H. apply bind_returned in H as (info & t1 & t2 & Hf & H & ->).
    rewrite uploads_app, (upload_file_returned _ _ _ _ _ _ _ _ Hf), (IH _ _ H).
    reflexivity.
Qed.

Lemma upload_files_in_order_witness :
  uploads (script demo_str
             (demo_env (Parsed (demo_args true)) (Some "tok") 200 201)).1
  = [("https://sandbox.zenodo.org/api/deposit/depositions/42/files", "tables.zip");
     ("https://sandbox.zenodo.org/api/deposit/depositions/42/files", "figures.zip")]
  /\
  uploads (upload_files demo_str (new_uploader "tok" true) (JInt 42)
             [truediv (Path "releases") "tables.zip";
              truediv (Path "releases") "figures.zip"]
             (demo_env (Parsed (demo_args true)) (Some "tok") 200 201) []).1
  = [("https://sandbox.zenodo.org/api/deposit/depositions/42/files", "tables.zip");
     ("https://sandbox.zenodo.org/api/deposit/depositions/42/files", "figures.zip")].
Proof.
  split; [reflexivity|].
  rewrite (upload_files_in_order demo_str (new_uploader "tok" true) (JInt 42)
             [truediv (Path "releases") "tables.zip";
              truediv (Path "releases") "figures.zip"]
             (demo_env (Parsed (demo_args true)) (Some "tok") 200 201) [] _ tt);
    reflexivity.
Defined.

Lemma fetched_mono (dir : string) (t t' : list event) asset file :
  (forall ev, In ev t -> In ev t') ->
  fetched dir t asset file -> fetched dir t' asset file.
Proof.
  intros Hsub (name & url & r & ? & ? & ? & ? & ? & ?).
  exists name, url, r. auto 8.
Qed.

Lemma fetched_app_l (dir : string) (t1 t2 : list event) asset file :
  fetched dir t1 asset file -> fetched dir (t1 ++ t2) asset file.
Proof.
  intros (name & url & r & ? & ? & ? & ? & ? & ?).
  exists name, url, r. rewrite !in_app_iff. tauto.
Qed.

Lemma fetched_app_r (dir : string) (t1 t2 : list event) asset file :
  fetched dir t2 asset file -> fetched dir (t1 ++ t2) asset file.
Proof.
  intros (name & url & r & ? & ? & ? & ? & ? & ?).
  exists name, url, r. rewrite !in_app_iff. tauto.
Qed.

Lemma download_asset_returned (py_str : json -> string) (dir : string)
  (asset : json) (E : env) (h t : list event) (file : pure_path) :
  download_asset py_str (Path dir) asset E h = (t, Returned file) ->
  fetched dir t asset file.
Proof.
  unfold download_asset. intros H.
  apply bind_returned in H as (url & t1 & t1' & Hurl & H & ->).
  apply lift_returned in Hurl as [Hurl ->].
  apply bind_returned in H as (name & t2 & t2' & Hname & H & ->).
  apply lift_returned in Hname as [Hname ->].
  apply bind_returned in H as (file_path & t3 & t3' & Hpath & H & ->).
  destruct name as [| | | |nm| |]; try discriminate Hpath.
  apply ret_returned in Hpath as [-> ->].
  apply bind_returned in H as ([] & t4 & t4' & _ & H & ->).
  apply bind_returned in H as (r & t5 & t5' & Hsend & H & ->).
  destruct url as [| | | |u| |]; try discriminate Hsend.
  apply send_returned in Hsend as ->.
  apply bind_returned in H as ([] & t6 & t6' & Hst & H & ->).
  apply status_returned in Hst as [Hok ->].
  apply bind_returned in H as ([] & t7 & t7' & Hw & H & ->).
  apply local_call_returned in Hw as ->.
  apply bind_returned in H as ([] & t8 & t8' & _ & H & ->).
  apply ret_returned in H as [-> ->].
  exists nm, u, r. rewrite !in_app_iff. cbn. tauto.
Qed.

Lemma download_assets_returned (py_str : json -> string) (dir : string)
  (assets : list json) (acc : list pure_path) (E : env) (h t : list event)
  (files : list pure_path) :
  download_assets py_str (Path dir) assets acc E h = (t, Returned files) ->
  exists new, files = acc ++ new /\ Forall2 (fetched dir t) assets new.
Proof.
  revert acc h t. induction assets as [|asset assets IH]; intros acc h t;
    cbn [download_assets].
  - intros H. apply ret_returned in H as [-> ->].
    exists []. split; [now rewrite app_nil_r | constructor].
  - intros H. apply bind_returned in H as (file & t1 & t2 & Hone & H & ->).
    apply download_asset_returned in Hone.
    destruct (IH _ _ _ H) as (new & -> & Hall).
    exists (file :: new). split; [now rewrite <- app_assoc|].
    constructor; [now apply fetched_app_l|].
    eapply Forall2_impl; [exact Hall|]. intros x y. apply fetched_app_r.
Qed.

(** X15: when [download_release] returns, the release lookup was
    answered with success, and the files returned are, in the order of
    the "assets" list of that answer (empty when the key is missing), one
    per asset: the download directory joined with the asset's "name", got
    by a successful GET of its "browser_download_url" and written with
    the content of that answer. In particular no file is returned
    exactly when the release lists no asset. *)
Theorem download_release_files (py_str : json -> string) (self : uploader)
  (owner name tag dir : string) (E : env) (h t : list event)
  (files : list pure_path) :
  download_release py_str self owner name tag dir E h = (t, Returned files) ->
  exists r release listed assets,
    In (Http (Request Release_lookup GET
                ("https://api.github.com/repos/" +:+ owner +:+ "/" +:+ name
                 +:+ "/releases/tags/" +:+ tag) None None [] 30)
          (Returned r)) t /\
    ok r = true /\ json_body r = Some release /\
    get_default release "assets" (JArr []) = Returned listed /\
    iterate listed = Returned assets /\
    Forall2 (fetched dir t) assets files /\
    (files = [] <-> assets = []).
Proof.
  unfold download_release. cbv zeta. intros H.
  apply bind_returned in H as ([] & t1 & t1' & _ & H & ->).
  apply bind_returned in H as (r & t2 & t2' & Hsend & H & ->).
  apply send_returned in Hsend as ->.
  apply bind_returned in H as ([] & t3 & t3' & Hst & H & ->).
  apply status_returned in Hst as [Hok ->].
  apply bind_returned in H as (release & t4 & t4' & Hj & H & ->).
  apply response_json_returned in Hj.
  apply bind_returned in H as (listed & t5 & t5' & Hl & H & ->).
  apply lift_returned in Hl as [Hl ->].
  apply bind_returned in H as (assets & t6 & t6' & Hi & H & ->).
  apply lift_returned in Hi as [Hi ->].
  apply download_assets_returned in H as (new & -> & Hall).
  exists r, release, listed, assets. cbn [app].
  split; [rewrite !in_app_iff; cbn; right; left; reflexivity|].
  split; [exact Hok|]. split; [exact Hj|]. split; [exact Hl|]. split; [exact Hi|].
  split.
  - eapply Forall2_impl; [exact Hall|]. intros x y Hxy.
    eapply fetched_mono; [|exact Hxy].
    intros ev Hin. rewrite ?in_app_iff. cbn. rewrite ?in_app_iff. tauto.
  - apply Forall2_length in Hall.
    destruct assets, new; cbn in *; split; intros; try reflexivity; discriminate.
Qed.

Lemma download_release_files_witness :
  let E := demo_env (Parsed (demo_args true)) (Some "tok") 200 201 in
  exists r release listed assets,
    ok r = true /\ json_body r = Some release /\
    get_default release "assets" (JArr []) = Returned listed /\
    iterate listed = Returned assets /\
    length assets = 2%nat.
Proof.
  cbv zeta.
  destruct (download_release_files demo_str (new_uploader "tok" true)
              "elkinnavarro-glitch" "immune-state-geometry-scATAC" "v1.0.0"
              "releases"
              (demo_env (Parsed (demo_args true)) (Some "tok") 200 201) [] _
              [truediv (Path "releases") "tables.zip";
               truediv (Path "releases") "figures.zip"] eq_refl)
    as (r & release & listed & assets & _ & Hok & Hj & Hl & Hi & Hall & _).
  exists r, release, listed, assets. repeat split; try assumption.
  now apply Forall2_length in Hall.
Defined.

(** *** The summary record *)

Lemma create_deposition_returned (py_str : json -> string) (self : uploader)
  (md deposition : json) (E : env) (h t : list event) :
  create_deposition py_str self md E h = (t, Returned deposition) ->
  exists rq r,
    rq_step rq = Create_deposition /\ In (Http rq (Returned r)) t /\
    ok r = true /\ json_body r = Some deposition.
Proof.
  unfold create_deposition. cbv zeta. intros H.
  apply bind_returned in H as (r & ts & ts' & Hsend & H & ->).
  apply send_returned in Hsend as ->.
  apply bind_returned in H as ([] & t1 & t1' & Hst & H & ->).
  apply status_returned in Hst as [Hok _].
  apply bind_returned in H as (dep & t2 & t2' & Hjson & H & ->).
  apply response_json_returned in Hjson.
  apply bind_returned in H as (id & t3 & t3' & _ & H & ->).
  apply bind_returned in H as ([] & t4 & t4' & _ & H & ->).
  apply ret_returned in H as [_ ->].
  eexists _, r.
  refine (conj _ (conj (or_introl eq_refl) (conj Hok Hjson))). reflexivity.
Qed.

Lemma publish_deposition_call (py_str : json -> string) (self : uploader)
  (id published : json) (E : env) (h t : list event) :
  publish_deposition py_str self id E h = (t, Returned published) ->
  exists r,
    In (Http (Request Publish POST
                (base_url self +:+ "/deposit/depositions/" +:+ py_str id
                 +:+ "/actions/publish") None None (headers self) 30)
          (Returned r)) t /\
    ok r = true /\ json_body r = Some published.
Proof.
  unfold publish_deposition. cbv zeta. intros H.
  apply bind_returned in H as (r & ts & ts' & Hsend & H & ->).
  apply send_returned in Hsend as ->.
  apply bind_returned in H as ([] & t1 & t1' & Hst & H & ->).
  apply status_returned in Hst as [Hok _].
  apply bind_returned in H as (dep & t2 & t2' & Hjson & H & ->).
  apply response_json_returned in Hjson.
  apply bind_returned in H as (meta & t3 & t3' & _ & H & ->).
  apply bind_returned in H as (doi & t4 & t4' & _ & H & ->).
  apply bind_returned in H as ([] & t5 & t5' & _ & H & ->).
  apply ret_returned in H as [_ ->].
  exists r. split; [now left | auto].
Qed.

Lemma report_and_save_record (py_str : json -> string) (a : args)
  (id published : json) (E : env) (h t : list event) (code : Z) :
  report_and_save py_str a id published E h = (t, Returned code) ->
  exists meta doi record_id,
    subscript published "metadata" = Returned meta /\
    get_default meta "doi" JNull = Returned doi /\
    subscript published "record_id" = Returned record_id /\
    In (Json_dump (Path "zenodo_release.json")
          (JObj [ ("timestamp", JStr (now_isoformat E));
                  ("deposition_id", id);
                  ("record_id", record_id);
                  ("doi", doi);
                  ("url", JStr (record_url py_str record_id));
                  ("tag", JStr (tag a)) ])) t.
Proof.
  unfold report_and_save. intros H.
  apply bind_returned in H as (meta & t1 & t1' & Hmeta & H & ->).
  apply lift_returned in Hmeta as [Hmeta ->].
  apply bind_returned in H as (doi & t2 & t2' & Hdoi & H & ->).
  apply lift_returned in Hdoi as [Hdoi ->].
  apply bind_returned in H as (rid & t3 & t3' & Hrid & H & ->).
  apply lift_returned in Hrid as [Hrid ->].
  do 7 skip_bind H.
  apply bind_returned in H as (now & tn & tn' & Hnow & H & ->).
  injection Hnow as <- <-.
  apply bind_returned in H as ([] & td & td' & Hdump & H & ->).
  apply local_call_returned in Hdump as ->.
  exists meta, doi, rid. repeat split; try assumption.
  rewrite ?in_app_iff. cbn. rewrite ?in_app_iff. cbn. tauto.
Qed.

Lemma pipeline_returned_parts (py_str : json -> string) (a : args) (tok : string)
  (E : env) (t : list event) (code : Z) :
  pipeline py_str a tok E [] = (t, Returned code) ->
  exists md deposition id published hc tc hp tp hr tr,
    create_deposition py_str (new_uploader tok (sandbox a)) md E hc
    = (tc, Returned deposition) /\
    subscript deposition "id" = Returned id /\
    publish_deposition py_str (new_uploader tok (sandbox a)) id E hp
    = (tp, Returned published) /\
    report_and_save py_str a id published E hr = (tr, Returned code) /\
    (forall ev, In ev tc \/ In ev tp \/ In ev tr -> In ev t).
Proof.
  unfold pipeline. cbv zeta. intros H.
  do 4 skip_bind H.
  apply bind_returned in H as (u & tu & tu' & Hu & H & ->).
  assert (u = new_uploader tok (sandbox a)) as ->.
  { unfold ZenodoUploader in Hu. cbv zeta in Hu.
    apply bind_returned in Hu as ([] & ? & ? & _ & Hu & ->).
    now apply ret_returned in Hu as [_ ->]. }
  apply bind_returned in H as (files & tf & tf' & _ & H & ->).
  destruct files as [|f files].
  { skip_bind H. discriminate H. }
  skip_bind H.
  apply bind_returned in H as (deposition & tc & tc' & Hc & H & ->).
  apply bind_returned in H as (id & ti & ti' & Hid & H & ->).
  apply lift_returned in Hid as [Hid ->].
  do 3 skip_bind H.
  apply bind_returned in H as (published & tp & tp' & Hp & H & ->).
  eexists _, deposition, id, published, _, tc, _, tp, _, _.
  split; [exact Hc|]. split; [exact Hid|]. split; [exact Hp|]. split; [exact H|].
  intros ev Hev. rewrite !in_app_iff. tauto.
Qed.

(** X16: in a successful run with an accepted command line the summary
    dumped to "zenodo_release.json" is the record of that run: its
    timestamp is the time read, its deposition id the "id" of the answer
    to the creation call, its record id and DOI those of the answer to the
    publication call (the DOI null when the answer has none), its tag the
    tag of the command line; and the deposition published is the one
    created. *)
Theorem summary_record (py_str : json -> string) (E : env) (a : args)
  (t : list event) :
  command_line E = Parsed a ->
  script py_str E = (t, 0) ->
  exists tok rqc rc deposition id rp published meta doi record_id,
    usable_token (ZENODO_TOKEN E) = Some tok /\
    rq_step rqc = Create_deposition /\ In (Http rqc (Returned rc)) t /\
    json_body rc = Some deposition /\
    subscript deposition "id" = Returned id /\
    In (Http (Request Publish POST
                ((if sandbox a then ZENODO_SANDBOX else ZENODO_PROD)
                 +:+ "/deposit/depositions/" +:+ py_str id +:+ "/actions/publish")
                None None [("Authorization", "Bearer " +:+ tok)] 30)
          (Returned rp)) t /\
    json_body rp = Some published /\
    subscript published "metadata" = Returned meta /\
    get_default meta "doi" JNull = Returned doi /\
    subscript published "record_id" = Returned record_id /\
    In (Json_dump (Path "zenodo_release.json")
          (JObj [ ("timestamp", JStr (now_isoformat E));
                  ("deposition_id", id);
                  ("record_id", record_id);
                  ("doi", doi);
                  ("url", JStr ("https://zenodo.org/record/" +:+ py_str record_id));
                  ("tag", JStr (tag a)) ])) t.
Proof.
  intros Hcl Hrun.
  destruct (usable_token (ZENODO_TOKEN E)) as [tok|] eqn:Htok.
  2:{ rewrite (script_without_token py_str E Htok), Hcl in Hrun. discriminate. }
  rewrite (script_with_token py_str E a tok Hcl Htok) in Hrun.
  destruct (pipeline py_str a tok E []) as [t' [code|[code|e]]] eqn:Hp;
    [| |discriminate].
  2:{ injection Hrun as -> ->.
      destruct (pipeline_spec py_str E _ a tok eq_refl []) as (s' & _ & Hpost).
      rewrite Hp in Hpost. cbn in Hpost.
      destruct Hpost as [(x & [=] & _) | [[=] _]]. }
  injection Hrun as -> ->.
  apply pipeline_returned_parts in Hp
    as (md & deposition & id & published & hc & tc & hp & tp & hr & tr
        & Hc & Hid & Hpub & Hsave & Hin).
  apply create_deposition_returned in Hc as (rqc & rc & Hstep & Hcin & _ & Hcj).
  apply publish_deposition_call in Hpub as (rp & Hpin & _ & Hpj).
  apply report_and_save_record in Hsave as (meta & doi & rid & Hm & Hd & Hr & Hdump).
  exists tok, rqc, rc, deposition, id, rp, published, meta, doi, rid.
  repeat split; auto.
Qed.

Lemma summary_record_witness :
  exists id record_id doi,
    In (Json_dump (Path "zenodo_release.json")
          (JObj [ ("timestamp", JStr "2025-01-01T00:00:00");
                  ("deposition_id", id);
                  ("record_id", record_id);
                  ("doi", doi);
                  ("url", JStr ("https://zenodo.org/record/" +:+ demo_str record_id));
                  ("tag", JStr "v1.0.0") ]))
       (script demo_str
          (demo_env (Parsed (demo_args true)) (Some "tok") 200 201)).1.
Proof.
  destruct (summary_record demo_str
              (demo_env (Parsed (demo_args true)) (Some "tok") 200 201)
              (demo_args true) _ eq_refl eq_refl)
    as (tok & rqc & rc & deposition & id & rp & published & meta & doi & rid & H).
  exists id, rid, doi. apply H.
Defined.

End UploaderExtra.
